(** * Review Sentiment Analyzer: a shallow embedding

    The page script [app.js] draws a random review, classifies it with a
    text-classification pipeline, keeps the last analysis in a global, and
    posts it to a Google Apps Script endpoint on request; the Apps Script
    appends what it receives to a sheet.

    Strings are modelled by [string], that is by sequences of code units
    below 256 (the Latin-1 range), JavaScript Numbers by IEEE 754 binary64
    values ([spec_float] at precision 53), thrown [Error]s by a result type,
    and the page globals by an explicit [State] record threaded through the
    handlers.  DOM updates other than the error banner are not part of the
    model. *)

From Stdlib Require Import String Ascii List Bool ZArith NArith Lia.
From Stdlib Require Import QArith Qabs.
From Stdlib Require Import Floats.SpecFloat.
Import ListNotations.

Close Scope Q_scope.
Local Open Scope string_scope.

(** ** JavaScript string builtins (code units below 256) *)

Module JsString.

(** The letters a to z. *)
Definition is_lower (c : ascii) : bool :=
  let n := N_of_ascii c in ((97 <=? n) && (n <=? 122))%N.

(** The letters A to Z. *)
Definition is_upper (c : ascii) : bool :=
  let n := N_of_ascii c in ((65 <=? n) && (n <=? 90))%N.

(** The accented lower-case letters U+00E0 to U+00FE, without the division
    sign U+00F7 that sits among them. *)
Definition is_lower_latin1 (c : ascii) : bool :=
  let n := N_of_ascii c in
  ((224 <=? n) && (n <=? 254) && negb (n =? 247))%N.

(** The upper-case form of a code unit: the letters a to z and U+00E0 to
    U+00FE have theirs 32 code units below; digits, punctuation, upper-case
    letters and the remaining code units are their own. *)
Definition upper_char (c : ascii) : ascii :=
  if is_lower c || is_lower_latin1 c
  then ascii_of_N (N_of_ascii c - 32) else c.

(** Three lower-case letters below 256 have an upper-case form that is not
    one code unit below 256: the micro sign U+00B5 (its form is U+039C),
    sharp s U+00DF (its form is the two letters SS) and y with diaeresis
    U+00FF (its form is U+0178).  [upper_char] leaves them as they are,
    which is not what the builtin does. *)
Definition upper_outside (c : ascii) : bool :=
  let n := N_of_ascii c in ((n =? 181) || (n =? 223) || (n =? 255))%N.

(** The strings on which [toUpperCase] below is the builtin: those free of
    the three code units of [upper_outside]. *)
Fixpoint upper_within (s : string) : bool :=
  match s with
  | EmptyString => true
  | String c s' => negb (upper_outside c) && upper_within s'
  end.

(** [String.prototype.toUpperCase], code unit by code unit. *)
Fixpoint toUpperCase (s : string) : string :=
  match s with
  | EmptyString => EmptyString
  | String c s' => String (upper_char c) (toUpperCase s')
  end.

(** [String.prototype.includes], search from position 0 *)
Fixpoint includes (s pat : string) : bool :=
  if prefix pat s then true
  else match s with
       | EmptyString => false
       | String _ s' => includes s' pat
       end.

(** The WhiteSpace and LineTerminator code units below 256, which [trim]
    strips: TAB, LF, VT, FF, CR, SP and the no-break space U+00A0. *)
Definition is_white (c : ascii) : bool :=
  match N_of_ascii c with
  | 9 | 10 | 11 | 12 | 13 | 32 | 160 => true
  | _ => false
  end%N.

Fixpoint trimStart (s : string) : string :=
  match s with
  | EmptyString => EmptyString
  | String c s' => if is_white c then trimStart s' else s
  end.

(** [trimEnd] keeps a character when it, or anything after it, is not
    white space. *)
Fixpoint trimEnd (s : string) : string :=
  match s with
  | EmptyString => EmptyString
  | String c s' =>
      match trimEnd s' with
      | EmptyString => if is_white c then EmptyString else String c EmptyString
      | t => String c t
      end
  end.

(** [String.prototype.trim] *)
Definition trim (s : string) : string := trimEnd (trimStart s).

(** ToBoolean on a string: only the empty string is falsy. *)
Definition truthy (s : string) : bool :=
  match s with EmptyString => false | _ => true end.

End JsString.

(** ** Case-insensitive containment, stated without reference to
       [toUpperCase] *)

Module CaseInsensitive.
Import JsString.

(** Two code units are the same letter up to case when they are equal or
    when one is an upper-case Latin letter and the other the lower-case
    letter 32 code points above it. *)
Definition same_letter (a b : ascii) : Prop :=
  a = b
  \/ (is_upper a = true /\ N_of_ascii b = (N_of_ascii a + 32)%N)
  \/ (is_upper b = true /\ N_of_ascii a = (N_of_ascii b + 32)%N).

Inductive ci_eq : string -> string -> Prop :=
| ci_nil : ci_eq EmptyString EmptyString
| ci_cons a b s t : same_letter a b -> ci_eq s t -> ci_eq (String a s) (String b t).

(** [label] contains [word] case-insensitively: some substring of [label]
    spells [word] up to the case of each letter. *)
Definition ci_contains (word label : string) : Prop :=
  exists pre mid post, label = pre ++ mid ++ post /\ ci_eq mid word.

End CaseInsensitive.

(** ** JavaScript Numbers: IEEE 754 binary64 *)

Module JsNumber.

Definition prec : Z := 53.
Definition emax : Z := 1024.

Definition number : Type := spec_float.

(** A Number is a well-formed double: finite values carry a canonical
    mantissa and exponent. *)
Definition wf (x : number) : Prop := valid_binary prec emax x = true.

Definition mul (x y : number) : number := SFmul prec emax x y.
Definition gt (x y : number) : bool := SFltb y x.
Definition le (x y : number) : bool := SFleb x y.
Definition lt (x y : number) : bool := SFltb x y.

(** The Number with the value of a length or other non-negative integer. *)
Definition of_nat (n : nat) : number :=
  binary_normalize prec emax (Z.of_nat n) 0 false.

Definition zero : number := S754_zero false.
(** 0.5 = 2^52 * 2^-53 *)
Definition half : number := S754_finite false 4503599627370496 (-53).
(** 1 = 2^52 * 2^-52 *)
Definition one : number := S754_finite false 4503599627370496 (-52).
(** 100 = (100 * 2^46) * 2^-46 *)
Definition hundred : number := S754_finite false 7036874417766400 (-46).

(** The magnitude of a finite nonzero double [m * 2^e] as the fraction
    [numerator m e / denominator e]. *)
Definition numerator (m : positive) (e : Z) : Z :=
  if (0 <=? e)%Z then (Zpos m * 2 ^ e)%Z else Zpos m.
Definition denominator (e : Z) : Z :=
  if (0 <=? e)%Z then 1%Z else (2 ^ (- e))%Z.

(** The mathematical integer [Math.floor x] of a finite Number. *)
Definition floor (x : number) : option Z :=
  match x with
  | S754_zero _ => Some 0%Z
  | S754_finite s m e => Some (cond_Zopp s (numerator m e) / denominator e)%Z
  | S754_infinity _ | S754_nan => None
  end.

(** *** Decimal digits of a non-negative integer *)

Definition digit (d : Z) : string :=
  String (ascii_of_N (48 + Z.to_N d)) EmptyString.

Fixpoint digits_fuel (fuel : nat) (n : Z) : string :=
  match fuel with
  | O => digit n
  | S k => if (n <? 10)%Z then digit n
           else digits_fuel k (n / 10) ++ digit (n mod 10)
  end.

Definition digits (n : Z) : string := digits_fuel (Z.to_nat (Z.log2 n)) n.

Fixpoint zeros (k : nat) : string :=
  match k with O => EmptyString | S k' => String "0" (zeros k') end.

(** *** [Number.prototype.toFixed]

    [nearest_scaled m e f] is "an integer [n] for which [n / 10^f - x] is
    as close to zero as possible; if there are two such [n], the larger",
    for [x = m * 2^e]. *)
Definition nearest_scaled (m : positive) (e : Z) (f : nat) : Z :=
  ((2 * 10 ^ Z.of_nat f * numerator m e + denominator e)
     / (2 * denominator e))%Z.

(** Steps 10.b-10.d: the digits of [n], left-padded with zeros to [f + 1]
    characters, with a point before the last [f] of them. *)
Definition place_point (n : Z) (f : nat) : string :=
  let m := digits n in
  match f with
  | O => m
  | _ =>
      let k := String.length m in
      let m := if (k <=? f)%nat then zeros (f + 1 - k) ++ m else m in
      let k := String.length m in
      substring 0 (k - f) m ++ "." ++ substring (k - f) f m
  end.

Section ToFixed.
(** [Number::toString], used by [toFixed] for NaN, the infinities and
    magnitudes of at least 10^21; not modelled. *)
Variable Number_toString : number -> string.

Definition toFixed (x : number) (f : nat) : string :=
  match x with
  | S754_nan | S754_infinity _ => Number_toString x
  | S754_zero _ => place_point 0 f
  | S754_finite s m e =>
      let sign := if s then "-" else "" in
      if (10 ^ 21 * denominator e <=? numerator m e)%Z
      then sign ++ Number_toString (S754_finite false m e)
      else sign ++ place_point (nearest_scaled m e f) f
  end.
End ToFixed.

End JsNumber.

Import JsString CaseInsensitive JsNumber.


(** ** The application *)

(** Configuration constants of [app.js]. *)
Record Config := {
  GOOGLE_SCRIPT_URL : string;
  MODEL_NAME : string
}.

(** The constants as they stand in the source; the URL is a placeholder that
    a deployment replaces. *)
Definition URL_PLACEHOLDER : string := "YOUR_GOOGLE_APPS_SCRIPT_WEB_APP_URL".

Definition source_config : Config := {|
  GOOGLE_SCRIPT_URL := URL_PLACEHOLDER;
  MODEL_NAME := "Xenova/distilbert-base-uncased-finetuned-sst-2-english"
|}.

(** The [Error]s the script throws or shows, named after the error taxonomy
    of the specification. [Rejected] is a rejection of the pipeline call or
    of [fetch], carrying the message of the rejecting error. *)
Inductive error :=
| EngineNotReady
| InvalidInput
| InvalidEngineOutput
| EmptyDataset
| NoAnalysisAvailable
| NotConfigured
| NotLoaded
| Rejected (msg : string).

Definition message (e : error) : string :=
  match e with
  | EngineNotReady => "Sentiment model not loaded"
  | InvalidInput => "Review text is empty"
  | InvalidEngineOutput => "Invalid analysis results"
  | EmptyDataset => "No reviews available"
  | NoAnalysisAvailable => "No analysis to log"
  | NotConfigured =>
      "Google Sheets integration not configured. Please set your Google Script URL."
  | NotLoaded => "Model or reviews not loaded yet"
  | Rejected msg => msg
  end.

Inductive result (A : Type) :=
| Ok (a : A)
| Throw (e : error).
Arguments Ok {A} a.
Arguments Throw {A} e.

(** One entry of the pipeline's output. *)
Record RawClassification := {
  raw_label : string;
  raw_score : number
}.

(** What the pipeline call resolves to: an array of classifications, or a
    value for which [Array.isArray] is false. *)
Inductive pipeline_output :=
| NotAnArray
| Results (rs : list RawClassification).

(** The loaded pipeline: a call resolves to an output or rejects. *)
Definition pipeline : Type := string -> result pipeline_output.

(** The object returned by [analyzeSentiment]. *)
Record Analysis := {
  label : string;
  score : number;
  sentiment : string;
  confidence : string
}.

(** The global [currentAnalysis]: [{ review, ...analysis, timestamp }].
    [review] is whatever [getRandomReview] returned; [None] stands for
    [undefined]. *)
Record CurrentAnalysis := {
  review : option string;
  analysis : Analysis;
  timestamp : string
}.

(** The page globals. *)
Record State := {
  reviews : list string;
  sentimentPipeline : option pipeline;
  currentAnalysis : option CurrentAnalysis;
  modelLoaded : bool;
  reviewsLoaded : bool
}.

Definition set_currentAnalysis (ca : CurrentAnalysis) (st : State) : State :=
  {| reviews := reviews st;
     sentimentPipeline := sentimentPipeline st;
     currentAnalysis := Some ca;
     modelLoaded := modelLoaded st;
     reviewsLoaded := reviewsLoaded st |}.

(** Values handed to [JSON.stringify]. *)
#[warnings="-register-all"]
Inductive json :=
| JNum (x : number)
| JStr (s : string)
| JObj (fields : list (string * json)).

(** The object posted to the endpoint. *)
Record Payload := {
  ts_iso : string;
  payload_review : option string;
  payload_sentiment : string;
  meta : string
}.

(** [navigator] and [window.screen] as read by [collectMetadata]. *)
Record ClientEnv := {
  userAgent : string;
  language : string;
  platform : string;
  screen_width : number;
  screen_height : number
}.

(** How the [fetch] of the log request settles. *)
Inductive fetch_result :=
| FetchResolved
| FetchRejected (msg : string).

(** Effects visible outside the script. *)
Inductive event :=
| ShowError (msg : string)
| UpdateUI (review : option string) (a : Analysis)
| FetchPost (url body : string)
| ConsoleLog (p : Payload).

(** *** A monad for the handlers: globals, thrown errors, emitted events *)

Definition M (A : Type) : Type := State -> result A * State * list event.

Definition ret {A} (a : A) : M A := fun st => (Ok a, st, []).

Definition bind {A B} (c : M A) (k : A -> M B) : M B :=
  fun st =>
    match c st with
    | (Ok a, st1, ev1) =>
        let '(r, st2, ev2) := k a st1 in (r, st2, (ev1 ++ ev2)%list)
    | (Throw e, st1, ev1) => (Throw e, st1, ev1)
    end.

Definition throw {A} (e : error) : M A := fun st => (Throw e, st, []).

(** [try { c } catch (error) { h error }] *)
Definition try_catch {A} (c : M A) (h : error -> M A) : M A :=
  fun st =>
    match c st with
    | (Ok a, st1, ev1) => (Ok a, st1, ev1)
    | (Throw e, st1, ev1) =>
        let '(r, st2, ev2) := h e st1 in (r, st2, (ev1 ++ ev2)%list)
    end.

Definition gets {A} (f : State -> A) : M A := fun st => (Ok (f st), st, []).
Definition modify (f : State -> State) : M unit := fun st => (Ok tt, f st, []).
Definition emit (e : event) : M unit := fun st => (Ok tt, st, [e]).
Definition lift {A} (r : result A) : M A := fun st => (r, st, []).

Declare Scope js_scope.
Delimit Scope js_scope with js.
Notation "x <- c ;; k" := (bind c (fun x => k))
  (at level 61, c at next level, right associativity) : js_scope.
Notation "c ;; k" := (bind c (fun _ => k))
  (at level 61, right associativity) : js_scope.
Local Open Scope js_scope.

Definition showError (msg : string) : M unit := emit (ShowError msg).

Section Handlers.
(** Builtins of the host that are not modelled. *)
Variable Number_toString : number -> string.
Variable JSON_stringify : json -> string.

Variable cfg : Config.

(** [getRandomReview()], with [r] the value drawn by [Math.random()].
    The result is [None] when the index misses the array. *)
Definition getRandomReview (r : number) : M (option string) :=
  rs <- gets reviews ;;
  if (List.length rs =? 0)%nat then throw EmptyDataset
  else
    let randomIndex := floor (mul r (of_nat (List.length rs))) in
    ret match randomIndex with
        | Some i => if (0 <=? i)%Z then nth_error rs (Z.to_nat i) else None
        | None => None
        end.

(** [!text || text.trim().length === 0] for a string [text] *)
Definition blank (text : string) : bool :=
  negb (truthy text) || (String.length (trim text) =? 0)%nat.

(** The sentiment category computed from the upper-cased label. *)
Definition categorize (label : string) (score : number) : string :=
  if includes label "POSITIVE" && gt score half then "positive"
  else if includes label "NEGATIVE" && gt score half then "negative"
  else "neutral".

(** [analyzeSentiment(text)]; [text] is [None] when the caller passes
    [undefined], which [!text] rejects like the empty string. *)
Definition analyzeSentiment (text : option string) : M Analysis :=
  p <- gets sentimentPipeline ;;
  match p with
  | None => throw EngineNotReady
  | Some run_pipeline =>
      match text with
      | None => throw InvalidInput
      | Some t =>
          if blank t then throw InvalidInput
          else
            results <- lift (run_pipeline t) ;;
            match results with
            | NotAnArray | Results [] => throw InvalidEngineOutput
            | Results (primaryResult :: _) =>
                let label := toUpperCase (raw_label primaryResult) in
                let score := raw_score primaryResult in
                let sentiment := categorize label score in
                ret {| label := label;
                       score := score;
                       sentiment := sentiment;
                       confidence :=
                         toFixed Number_toString (mul score hundred) 1 |}
            end
      end
  end.

(** [analyzeRandomReview()], the click handler of the analyze button;
    [now] is [new Date().toISOString()]. *)
Definition analyzeRandomReview (r : number) (now : string) : M unit :=
  ml <- gets modelLoaded ;;
  rl <- gets reviewsLoaded ;;
  if negb ml || negb rl then showError (message NotLoaded)
  else
    try_catch
      (review <- getRandomReview r ;;
       analysis <- analyzeSentiment review ;;
       modify (set_currentAnalysis
                 {| review := review; analysis := analysis; timestamp := now |}) ;;
       emit (UpdateUI review analysis))
      (fun e => showError ("Analysis failed: " ++ message e)).

(** [collectMetadata()]; [t1] and [t2] are its two clock readings. *)
Definition collectMetadata (env : ClientEnv) (t1 t2 : string)
  : M (list (string * json)) :=
  rs <- gets reviews ;;
  ret [ ("userAgent", JStr (userAgent env));
        ("language", JStr (language env));
        ("platform", JStr (platform env));
        ("screenResolution",
          JStr (Number_toString (screen_width env) ++ "x"
                ++ Number_toString (screen_height env)));
        ("model", JStr (MODEL_NAME cfg));
        ("timestamp", JStr t1);
        ("reviewCount", JNum (of_nat (List.length rs)));
        ("analysisTime", JStr t2) ].

Definition payload_json (p : Payload) : json :=
  JObj ([ ("ts_iso", JStr (ts_iso p)) ]
        ++ match payload_review p with
           | Some r => [ ("review", JStr r) ]
           | None => []
           end
        ++ [ ("sentiment", JStr (payload_sentiment p));
             ("meta", JStr (meta p)) ])%list.

(** [!GOOGLE_SCRIPT_URL || GOOGLE_SCRIPT_URL === '...'] *)
Definition not_configured : bool :=
  negb (truthy (GOOGLE_SCRIPT_URL cfg))
  || String.eqb (GOOGLE_SCRIPT_URL cfg) URL_PLACEHOLDER.

(** The [payload] object literal of [logToGoogleSheets]. *)
Definition build_payload (ca : CurrentAnalysis) (metadata : list (string * json))
  : Payload :=
  let a := analysis ca in
  {| ts_iso := timestamp ca;
     payload_review := review ca;
     payload_sentiment := label a ++ " (" ++ confidence a ++ "%)";
     meta := JSON_stringify
               (JObj (metadata ++
                      [ ("analysis",
                          JObj [ ("label", JStr (label a));
                                 ("score", JNum (score a));
                                 ("sentiment", JStr (sentiment a));
                                 ("confidence", JStr (confidence a)) ]) ])%list) |}.

(** [logToGoogleSheets()], the click handler of the log button; [net] is
    how the [fetch] settles. *)
Definition logToGoogleSheets (env : ClientEnv) (t1 t2 : string)
           (net : fetch_result) : M unit :=
  cur <- gets currentAnalysis ;;
  match cur with
  | None => showError (message NoAnalysisAvailable)
  | Some ca =>
      if not_configured then showError (message NotConfigured)
      else
        try_catch
          (metadata <- collectMetadata env t1 t2 ;;
           let payload := build_payload ca metadata in
           emit (FetchPost (GOOGLE_SCRIPT_URL cfg)
                           (JSON_stringify (payload_json payload))) ;;
           match net with
           | FetchRejected msg => throw (Rejected msg)
           | FetchResolved => emit (ConsoleLog payload)
           end)
          (fun e => showError ("Failed to log to Google Sheets: " ++ message e))
  end.

End Handlers.

(** ** Specification vocabulary *)

Module Spec.

(** *** Reading decimal numerals *)

Definition digit_value (c : ascii) : option Z :=
  let n := N_of_ascii c in
  if ((48 <=? n) && (n <=? 57))%N then Some (Z.of_N n - 48)%Z else None.

Fixpoint numeral_value_from (acc : Z) (s : string) : option Z :=
  match s with
  | EmptyString => Some acc
  | String c s' =>
      match digit_value c with
      | Some d => numeral_value_from (10 * acc + d) s'
      | None => None
      end
  end.

(** The number written by a non-empty string of decimal digits. *)
Definition numeral_value (s : string) : option Z :=
  match s with
  | EmptyString => None
  | _ => numeral_value_from 0 s
  end.

(** [s] is a decimal numeral with exactly one digit after the point, and
    it denotes [n / 10]. *)
Definition denotes_tenths (s : string) (n : Z) : Prop :=
  exists (int_part : string) (d : ascii) (a b : Z),
    s = int_part ++ "." ++ String d EmptyString
    /\ numeral_value int_part = Some a
    /\ digit_value d = Some b
    /\ n = (10 * a + b)%Z.

(** *** The exact value of a Number *)

Definition value (x : number) : option Q :=
  match x with
  | S754_zero _ => Some 0%Q
  | S754_finite s m e =>
      Some (Qmake (cond_Zopp s (numerator m e)) (Z.to_pos (denominator e)))
  | S754_infinity _ | S754_nan => None
  end.

(** [n / 10] is the multiple of one tenth nearest to [x], and the larger
    one when two are equally near. *)
Definition nearest_tenth (x : Q) (n : Z) : Prop :=
  forall k : Z,
    (Qabs ((n # 10) - x) <= Qabs ((k # 10) - x))%Q
    /\ ((Qabs ((k # 10) - x) == Qabs ((n # 10) - x))%Q -> (k <= n)%Z).

(** Every character of the string is white space. *)
Fixpoint all_white (s : string) : Prop :=
  match s with
  | EmptyString => True
  | String c s' => is_white c = true /\ all_white s'
  end.

(** No character of the string is one of the letters a to z. *)
Fixpoint no_lower (s : string) : Prop :=
  match s with
  | EmptyString => True
  | String c s' => is_lower c = false /\ no_lower s'
  end.

(** The lower-case letters among the code units below 256: a to z, the
    micro sign U+00B5, and U+00DF to U+00FF without the division sign. *)
Definition lower_case_letter (c : ascii) : bool :=
  let n := N_of_ascii c in
  (((97 <=? n) && (n <=? 122))
   || (n =? 181)
   || ((223 <=? n) && (n <=? 255) && negb (n =? 247)))%N.

(** The string has no lower-case letter at all. *)
Fixpoint no_lower_case (s : string) : Prop :=
  match s with
  | EmptyString => True
  | String c s' => lower_case_letter c = false /\ no_lower_case s'
  end.

(** Every character of the string is one of the 52 letters a to z and A to
    Z. *)
Fixpoint plain_letters (s : string) : bool :=
  match s with
  | EmptyString => true
  | String c s' => (is_upper c || is_lower c) && plain_letters s'
  end.

End Spec.

Import Spec.

(** ** Sample inputs for closed examples *)

Module Samples.

(** A stand-in for [Number::toString] that writes the integer part of a
    non-negative finite Number in decimal. *)
Definition toString_integral (x : number) : string :=
  match floor x with
  | Some n => digits n
  | None => "NaN"
  end.

(** The no-break space, U+00A0. *)
Definition nbsp : string := String (ascii_of_N 160) EmptyString.

(** The quotation mark, U+0022. *)
Definition quote_mark : string := String (ascii_of_N 34) EmptyString.

Definition quoted (s : string) : string := quote_mark ++ s ++ quote_mark.

(** A stand-in for [JSON.stringify] that escapes nothing; the examples give
    it strings free of quotes, backslashes and control characters. *)
Fixpoint stringify_plain (j : json) : string :=
  match j with
  | JNum x => toString_integral x
  | JStr s => quoted s
  | JObj fields =>
      "{" ++ (fix members (fs : list (string * json)) : string :=
                match fs with
                | [] => ""
                | [(k, v)] => quoted k ++ ":" ++ stringify_plain v
                | (k, v) :: rest =>
                    quoted k ++ ":" ++ stringify_plain v ++ "," ++ members rest
                end) fields ++ "}"
  end.

(** The doubles nearest to 0.952, 0.98, 0.9 and 0.4. *)
Definition score_0_952 : number := S754_finite false 8574853690513424 (-53).
Definition score_0_98 : number := S754_finite false 8827055269646172 (-53).
Definition score_0_9 : number := S754_finite false 8106479329266893 (-53).
Definition score_0_4 : number := S754_finite false 7205759403792794 (-54).

(** A pipeline that answers every text with one classification. *)
Definition constant_pipeline (l : string) (s : number) : pipeline :=
  fun _ => Ok (Results [ {| raw_label := l; raw_score := s |} ]).

(** The page after both loads have completed. *)
Definition loaded (rs : list string) (p : pipeline) : State :=
  {| reviews := rs;
     sentimentPipeline := Some p;
     currentAnalysis := None;
     modelLoaded := true;
     reviewsLoaded := true |}.

(** The page before the model has loaded. *)
Definition unloaded (rs : list string) : State :=
  {| reviews := rs;
     sentimentPipeline := None;
     currentAnalysis := None;
     modelLoaded := false;
     reviewsLoaded := true |}.

Definition deployed_config : Config := {|
  GOOGLE_SCRIPT_URL := "https://script.google.com/macros/s/ID/exec";
  MODEL_NAME := MODEL_NAME source_config
|}.

Definition sample_env : ClientEnv := {|
  userAgent := "Mozilla/5.0";
  language := "en-US";
  platform := "Linux x86_64";
  screen_width := of_nat 1920;
  screen_height := of_nat 1080
|}.

(** A stored analysis, as [analyzeRandomReview] leaves it. *)
Definition logged_analysis : CurrentAnalysis :=
  {| review := Some "Great product!";
     analysis := {| label := "POSITIVE";
                    score := score_0_952;
                    sentiment := "positive";
                    confidence := "95.2" |};
     timestamp := "2026-02-06T10:00:00.000Z" |}.

End Samples.

Import Samples.

(** ** Startup: [loadReviews], [loadModel] and the [DOMContentLoaded] handler *)

(** The [text] field of a row parsed from the TSV file: absent, a string,
    or a value of another type. *)
Inductive cell :=
| CellUndefined
| CellString (s : string)
| CellOther.

(** How [fetch(TSV_FILE)] settles: it rejects, or it resolves to a response
    whose [text()] resolves to the body or rejects. *)
Inductive tsv_fetch :=
| FetchFails (e : error)
| Response (ok : bool) (status : number) (statusText : string)
           (body : result string).

Definition set_reviews (rs : list string) (st : State) : State :=
  {| reviews := rs;
     sentimentPipeline := sentimentPipeline st;
     currentAnalysis := currentAnalysis st;
     modelLoaded := modelLoaded st;
     reviewsLoaded := reviewsLoaded st |}.

Definition set_reviewsLoaded (b : bool) (st : State) : State :=
  {| reviews := reviews st;
     sentimentPipeline := sentimentPipeline st;
     currentAnalysis := currentAnalysis st;
     modelLoaded := modelLoaded st;
     reviewsLoaded := b |}.

Definition set_sentimentPipeline (p : pipeline) (st : State) : State :=
  {| reviews := reviews st;
     sentimentPipeline := Some p;
     currentAnalysis := currentAnalysis st;
     modelLoaded := modelLoaded st;
     reviewsLoaded := reviewsLoaded st |}.

Definition set_modelLoaded (b : bool) (st : State) : State :=
  {| reviews := reviews st;
     sentimentPipeline := sentimentPipeline st;
     currentAnalysis := currentAnalysis st;
     modelLoaded := b;
     reviewsLoaded := reviewsLoaded st |}.

(** The page as the script's declarations leave it. *)
Definition initial_state : State :=
  {| reviews := [];
     sentimentPipeline := None;
     currentAnalysis := None;
     modelLoaded := false;
     reviewsLoaded := false |}.

(** [text && typeof text === 'string' && text.trim().length > 0] *)
Definition valid_text (c : cell) : bool :=
  match c with
  | CellString s => truthy s && (0 <? String.length (trim s))%nat
  | CellUndefined | CellOther => false
  end.

(** [cells.filter(valid_text)], as the strings that remain. *)
Fixpoint review_texts (cells : list cell) : list string :=
  match cells with
  | [] => []
  | c :: rest =>
      match c with
      | CellString s =>
          if valid_text c then s :: review_texts rest else review_texts rest
      | CellUndefined | CellOther => review_texts rest
      end
  end.

(** Which of the two loads settles first. *)
Inductive settle_order := ReviewsFirst | ModelFirst.

(** Run [c] to its settlement, keeping a rejection as a value. *)
Definition settled {A} (c : M A) : M (result A) :=
  fun st => let '(r, st1, ev) := c st in (Ok r, st1, ev).

(** One click on the page. *)
Inductive click :=
| ClickAnalyze (r : number) (now : string)
| ClickLog (env : ClientEnv) (t1 t2 : string) (net : fetch_result).

Section Startup.
Variable Number_toString : number -> string.
Variable JSON_stringify : json -> string.
Variable cfg : Config.

(** [Papa.parse(tsvContent, ...).data.map(row => row.text)]: the [text]
    column of the parsed file; the parser is not modelled. *)
Variable parse_text_column : string -> list cell.

(** [loadReviews()]; the [catch] block updates the status panel and
    rethrows. *)
Definition loadReviews (resp : tsv_fetch) : M unit :=
  match resp with
  | FetchFails e => throw e
  | Response ok status statusText body =>
      if negb ok
      then throw (Rejected ("Failed to load TSV file: "
                            ++ Number_toString status ++ " " ++ statusText))
      else
        tsvContent <- lift body ;;
        let rs := review_texts (parse_text_column tsvContent) in
        modify (set_reviews rs) ;;
        if (List.length rs =? 0)%nat
        then throw (Rejected "No valid reviews found in TSV file")
        else modify (set_reviewsLoaded true)
  end.

(** [loadModel()]; [built] is how the call of [pipeline(...)] settles. *)
Definition loadModel (built : result pipeline) : M unit :=
  match built with
  | Ok p =>
      modify (set_sentimentPipeline p) ;;
      modify (set_modelLoaded true)
  | Throw e => throw (Rejected ("Model loading failed: " ++ message e))
  end.

(** What the [DOMContentLoaded] handler does once [Promise.all] settles:
    with both loads fulfilled it enables the analyze button and attaches
    the click handlers (result [true]); at the first rejection it shows
    the error (result [false]). *)
Definition after_loads (first second : result unit) : M bool :=
  match first, second with
  | Ok _, Ok _ => ret true
  | Throw e, _ | Ok _, Throw e =>
      showError ("Failed to initialize application: " ++ message e) ;;
      ret false
  end.

(** The [DOMContentLoaded] handler, up to the settlement of both loads. *)
Definition initialize (order : settle_order) (resp : tsv_fetch)
           (built : result pipeline) : M bool :=
  match order with
  | ReviewsFirst =>
      r1 <- settled (loadReviews resp) ;;
      r2 <- settled (loadModel built) ;;
      after_loads r1 r2
  | ModelFirst =>
      r2 <- settled (loadModel built) ;;
      r1 <- settled (loadReviews resp) ;;
      after_loads r2 r1
  end.

(** The handler a click runs. *)
Definition handle (c : click) : M unit :=
  match c with
  | ClickAnalyze r now => analyzeRandomReview Number_toString r now
  | ClickLog env t1 t2 net =>
      logToGoogleSheets Number_toString JSON_stringify cfg env t1 t2 net
  end.

(** Clicks handled one after the other, each handler running to its end
    before the next click is handled.  The handlers of the source are
    [async]: this is the schedule in which every click arrives after the
    handler of the click before it has settled.  A handler that starts
    while another one awaits the pipeline or the request is outside it. *)
Fixpoint handle_all (cs : list click) : M unit :=
  match cs with
  | [] => ret tt
  | c :: rest => handle c ;; handle_all rest
  end.

End Startup.

(** The page is ready: both loads have completed. *)
Definition Ready (st : State) : Prop :=
  modelLoaded st = true
  /\ reviewsLoaded st = true
  /\ sentimentPipeline st <> None
  /\ reviews st <> []
  /\ Forall (fun s => ~ all_white s) (reviews st).

(** An analysis as [analyzeSentiment] produces them. *)
Definition well_formed_analysis (Number_toString : number -> string)
           (a : Analysis) : Prop :=
  no_lower (label a)
  /\ sentiment a = categorize (label a) (score a)
  /\ (sentiment a = "positive" \/ sentiment a = "negative"
      \/ sentiment a = "neutral")
  /\ confidence a = toFixed Number_toString (mul (score a) hundred) 1.

(** The stored analysis, when there is one, is of a review of the dataset
    that is not blank, and is as [analyzeSentiment] produces them. *)
Definition stored_analysis_ok (Number_toString : number -> string)
           (st : State) : Prop :=
  forall ca, currentAnalysis st = Some ca ->
    exists x, review ca = Some x
              /\ In x (reviews st)
              /\ ~ all_white x
              /\ well_formed_analysis Number_toString (analysis ca).

(** The outcome of [analyzeRandomReview] once review [x] has been drawn and
    the pipeline has answered. *)
Definition analysis_outcome (Number_toString : number -> string)
           (st : State) (x now : string) (answer : result pipeline_output)
  : result unit * State * list event :=
  match answer with
  | Ok (Results (primary :: _)) =>
      let a := {| label := toUpperCase (raw_label primary);
                  score := raw_score primary;
                  sentiment := categorize (toUpperCase (raw_label primary))
                                          (raw_score primary);
                  confidence := toFixed Number_toString
                                        (mul (raw_score primary) hundred) 1 |} in
      (Ok tt,
       set_currentAnalysis
         {| review := Some x; analysis := a; timestamp := now |} st,
       [UpdateUI (Some x) a])
  | Ok NotAnArray | Ok (Results []) =>
      (Ok tt, st,
       [ShowError ("Analysis failed: " ++ message InvalidEngineOutput)])
  | Throw e => (Ok tt, st, [ShowError ("Analysis failed: " ++ message e)])
  end.

(** Whether an event is the posting of a log record. *)
Definition is_post (e : event) : bool :=
  match e with
  | FetchPost _ _ => true
  | _ => false
  end.

(** ** The logging endpoint: the Apps Script [doPost] and [setupSheet]

    The spreadsheet service is modelled by its observable content: a
    spreadsheet holds sheets by name, a sheet is a grid of cell values, and
    rows and cells that were never written are empty.  The service does not
    let a spreadsheet lose its last sheet.  Formatting calls (font weight,
    colours, column widths, frozen rows) are left out. *)

Module AppsScript.

(** The values of the cells of a row, from column 1 on; the empty string
    is an empty cell. *)
Definition Row : Type := list string.

(** The rows of a sheet, from row 1 on. *)
Definition Grid : Type := list Row.

(** The sheets of a spreadsheet, each under its name.  Sheets are looked up
    by name only; the order of the list carries no meaning. *)
Definition Book : Type := list (string * Grid).

(** [spreadsheet.getSheetByName(name)] *)
Fixpoint getSheetByName (name : string) (b : Book) : option Grid :=
  match b with
  | [] => None
  | (n, g) :: rest =>
      if String.eqb n name then Some g else getSheetByName name rest
  end.

(** The spreadsheet with sheet [name] holding [g]: the content of the sheet
    is replaced, and a sheet that is not there yet is added, as
    [spreadsheet.insertSheet(name)] followed by the writes does. *)
Fixpoint put_sheet (name : string) (g : Grid) (b : Book) : Book :=
  match b with
  | [] => [(name, g)]
  | (n, g0) :: rest =>
      if String.eqb n name then (n, g) :: rest
      else (n, g0) :: put_sheet name g rest
  end.

(** The sheets other than [name]. *)
Definition other_sheets (name : string) (b : Book) : Book :=
  filter (fun sheet => negb (String.eqb (fst sheet) name)) b.

(** [spreadsheet.deleteSheet(sheet)]: the sheet is removed, unless it is
    the only sheet of the spreadsheet, which the service refuses with an
    exception. *)
Definition deleteSheet (name : string) (b : Book) : result Book :=
  match other_sheets name b with
  | [] => Throw (Rejected "You can't remove all the sheets in a document.")
  | rest => Ok rest
  end.

(** Row [i] of a sheet, counting from 1. *)
Definition row_at (g : Grid) (i : nat) : Row := nth (i - 1) g [].

Definition has_content (r : Row) : bool :=
  existsb (fun c => negb (String.eqb c "")) r.

(** [sheet.getLastRow()]: the position of the last row that has content,
    0 when there is none. *)
Fixpoint getLastRow (g : Grid) : nat :=
  match g with
  | [] => 0
  | r :: rest =>
      match getLastRow rest with
      | O => if has_content r then 1 else 0
      | S k => S (S k)
      end
  end.

(** [sheet.getRange(i, 1, 1, n).setValues([vals])] with [n] the number of
    values: the first [n] cells of row [i] are overwritten. *)
Fixpoint setRow (i : nat) (vals : Row) (g : Grid) : Grid :=
  match i with
  | O => g
  | S O =>
      match g with
      | [] => [vals]
      | r :: rest => (vals ++ skipn (List.length vals) r)%list :: rest
      end
  | S i' =>
      match g with
      | [] => [] :: setRow i' vals []
      | r :: rest => r :: setRow i' vals rest
      end
  end.

Definition HEADERS : Row :=
  ["Timestamp (ts_iso)"; "Review"; "Sentiment (with confidence)"; "Meta"].

Definition sheetName : string := "Logs".

(** The object parsed from the request body. *)
Record LogData := {
  data_ts_iso : string;
  data_review : string;
  data_sentiment : string;
  data_meta : string
}.

(** [rowData] *)
Definition rowData (d : LogData) : Row :=
  [data_ts_iso d; data_review d; data_sentiment d; data_meta d].

(** The JSON object [doPost] answers with. *)
Inductive reply :=
| Logged (msg : string) (row : nat)
| Failed (err : string).

(** [doPost(e)].  [parsed] is how [JSON.parse(e.postData.contents)]
    evaluates and [opened] how [SpreadsheetApp.openById] does; the second
    component is the spreadsheet afterwards. *)
Definition doPost (parsed : result LogData) (opened : result Book)
  : reply * result Book :=
  match parsed with
  | Throw e => (Failed (message e), opened)
  | Ok data =>
      match opened with
      | Throw e => (Failed (message e), opened)
      | Ok spreadsheet =>
          let '(sheet, spreadsheet) :=
            match getSheetByName sheetName spreadsheet with
            | Some sheet => (sheet, spreadsheet)
            | None =>
                let sheet := setRow 1 HEADERS [] in
                (sheet, put_sheet sheetName sheet spreadsheet)
            end in
          let lastRow := getLastRow sheet in
          let sheet := setRow (lastRow + 1) (rowData data) sheet in
          (Logged "Data logged successfully" (lastRow + 1),
           Ok (put_sheet sheetName sheet spreadsheet))
      end
  end.

(** [setupSheet()]; it has no [catch], so a spreadsheet that cannot be
    opened, or a sheet that cannot be deleted, makes it throw.  Both happen
    before anything is written, so a [Throw] leaves the spreadsheet as it
    was. *)
Definition setupSheet (opened : result Book) : result Book :=
  match opened with
  | Throw e => Throw e
  | Ok spreadsheet =>
      let deleted :=
        match getSheetByName sheetName spreadsheet with
        | Some _ => deleteSheet sheetName spreadsheet
        | None => Ok spreadsheet
        end in
      match deleted with
      | Throw e => Throw e
      | Ok spreadsheet =>
          Ok (put_sheet sheetName (setRow 1 HEADERS []) spreadsheet)
      end
  end.

(** Requests answered one after the other on a spreadsheet that opens. *)
Fixpoint post_all (ds : list LogData) (b : Book) : list reply * Book :=
  match ds with
  | [] => ([], b)
  | d :: rest =>
      match doPost (Ok d) (Ok b) with
      | (r, Ok b1) => let '(rs, b2) := post_all rest b1 in (r :: rs, b2)
      | (r, Throw _) => ([r], b)
      end
  end.

End AppsScript.

(** ** More sample inputs *)

Module MoreSamples.
Import AppsScript.

(** A [text] column with two reviews, a missing cell and two blank cells,
    one of spaces and one of a no-break space. *)
Definition sample_column : list cell :=
  [CellString "Great product!"; CellUndefined; CellString "  ";
   CellString nbsp; CellString "Terrible experience."].

Definition sample_parse : string -> list cell := fun _ => sample_column.

(** A response that carries the file. *)
Definition sample_response : tsv_fetch :=
  Response true (of_nat 200) "OK" (Ok "text").

(** The response for a missing file. *)
Definition missing_response : tsv_fetch :=
  Response false (of_nat 404) "Not Found" (Ok "").

(** A ready page over the two sample reviews. *)
Definition ready_page : State :=
  loaded ["Great product!"; "Terrible experience."]
         (constant_pipeline "POSITIVE" score_0_98).

Definition sample_clicks : list click :=
  [ClickAnalyze score_0_4 "2026-02-06T10:00:00.000Z";
   ClickLog sample_env "2026-02-06T10:05:00.000Z" "2026-02-06T10:05:00.001Z"
            FetchResolved;
   ClickAnalyze score_0_952 "2026-02-06T10:06:00.000Z"].

Definition sample_record : LogData :=
  {| data_ts_iso := "2026-02-06T10:00:00.000Z";
     data_review := "Great product!";
     data_sentiment := "POSITIVE (98.0%)";
     data_meta := "{}" |}.

Definition second_record : LogData :=
  {| data_ts_iso := "2026-02-06T10:06:00.000Z";
     data_review := "Terrible experience.";
     data_sentiment := "NEGATIVE (95.2%)";
     data_meta := "{}" |}.

(** A spreadsheet whose only sheet is 'Logs', holding the header row. *)
Definition fresh_book : Book := [(sheetName, [HEADERS])].

(** A new spreadsheet, with the one empty sheet it is created with. *)
Definition new_book : Book := [("Sheet1", [])].

(** A spreadsheet in use: a sheet of the owner's and a 'Logs' sheet with
    one logged row. *)
Definition used_book : Book :=
  [("Sheet1", [["notes"]]);
   (sheetName, [HEADERS; rowData sample_record])].

End MoreSamples.

Import MoreSamples.

(** * Properties *)

(** ** Strings *)

Section StringFacts.

Lemma N_of_ascii_lt (c : ascii) : (N_of_ascii c < 256)%N.
Proof. apply N_ascii_bounded. Qed.

Lemma N_of_ascii_inj (a b : ascii) : N_of_ascii a = N_of_ascii b -> a = b.
Proof.
  intro H. rewrite <- (ascii_N_embedding a), <- (ascii_N_embedding b).
  now rewrite H.
Qed.

Lemma is_lower_spec (c : ascii) :
  is_lower c = true <-> (97 <= N_of_ascii c <= 122)%N.
Proof. unfold is_lower. cbv zeta. rewrite andb_true_iff, !N.leb_le. tauto. Qed.

Lemma is_upper_spec (c : ascii) :
  is_upper c = true <-> (65 <= N_of_ascii c <= 90)%N.
Proof. unfold is_upper. cbv zeta. rewrite andb_true_iff, !N.leb_le. tauto. Qed.

Lemma is_lower_latin1_spec (c : ascii) :
  is_lower_latin1 c = true
  <-> (224 <= N_of_ascii c <= 254 /\ N_of_ascii c <> 247)%N.
Proof.
  unfold is_lower_latin1. cbv zeta.
  rewrite !andb_true_iff, negb_true_iff, !N.leb_le, N.eqb_neq. tauto.
Qed.

Lemma upper_outside_spec (c : ascii) :
  upper_outside c = false
  <-> (N_of_ascii c <> 181 /\ N_of_ascii c <> 223 /\ N_of_ascii c <> 255)%N.
Proof.
  unfold upper_outside. cbv zeta.
  rewrite !orb_false_iff, !N.eqb_neq. tauto.
Qed.

Lemma lower_case_letter_spec (c : ascii) :
  lower_case_letter c = true
  <-> ((97 <= N_of_ascii c <= 122)
       \/ N_of_ascii c = 181
       \/ (223 <= N_of_ascii c <= 255 /\ N_of_ascii c <> 247))%N.
Proof.
  unfold lower_case_letter. cbv zeta.
  rewrite !orb_true_iff, !andb_true_iff, negb_true_iff, !N.leb_le, N.eqb_eq,
    N.eqb_neq.
  tauto.
Qed.

(** The code of the upper-case form: 32 below for the letters that have
    one, the code unit itself otherwise. *)
Lemma upper_char_code (c : ascii) :
  ((97 <= N_of_ascii c <= 122
    \/ (224 <= N_of_ascii c <= 254 /\ N_of_ascii c <> 247))
   /\ N_of_ascii (upper_char c) = N_of_ascii c - 32)%N
  \/ (~ (97 <= N_of_ascii c <= 122)%N
      /\ ~ (224 <= N_of_ascii c <= 254 /\ N_of_ascii c <> 247)%N
      /\ N_of_ascii (upper_char c) = N_of_ascii c).
Proof.
  unfold upper_char.
  destruct (is_lower c) eqn:L; [apply is_lower_spec in L|];
    [|destruct (is_lower_latin1 c) eqn:L1;
      [apply is_lower_latin1_spec in L1|]]; cbn [orb].
  - left. split; [now left|].
    apply N_ascii_embedding. pose proof (N_of_ascii_lt c). lia.
  - left. split; [now right|].
    apply N_ascii_embedding. pose proof (N_of_ascii_lt c). lia.
  - right. apply not_true_iff_false in L, L1.
    rewrite is_lower_spec in L. rewrite is_lower_latin1_spec in L1. auto.
Qed.

(** A code unit is the same letter as one of the letters a to z and A to Z
    exactly when upper-casing identifies them. *)
Lemma same_letter_upper (a b : ascii) :
  is_upper b || is_lower b = true ->
  same_letter a b <-> upper_char a = upper_char b.
Proof.
  intro Hb. apply orb_true_iff in Hb.
  rewrite is_upper_spec, is_lower_spec in Hb.
  unfold same_letter. split.
  - intros [-> | [[Ha Hab] | [Hb' Hab]]]; [reflexivity | |];
      apply N_of_ascii_inj;
      (apply is_upper_spec in Ha || apply is_upper_spec in Hb');
      pose proof (upper_char_code a); pose proof (upper_char_code b); lia.
  - intro H. apply (f_equal N_of_ascii) in H.
    assert (Hc : (N_of_ascii a = N_of_ascii b
                  \/ (65 <= N_of_ascii a <= 90
                      /\ N_of_ascii b = N_of_ascii a + 32)
                  \/ (65 <= N_of_ascii b <= 90
                      /\ N_of_ascii a = N_of_ascii b + 32))%N).
    { pose proof (upper_char_code a). pose proof (upper_char_code b). lia. }
    destruct Hc as [Hc|[[Hc1 Hc2]|[Hc1 Hc2]]].
    + left. now apply N_of_ascii_inj.
    + right; left. split; [now apply is_upper_spec|assumption].
    + right; right. split; [now apply is_upper_spec|assumption].
Qed.

Lemma ci_eq_upper (s t : string) :
  plain_letters t = true ->
  ci_eq s t <-> toUpperCase s = toUpperCase t.
Proof.
  intro Ht. split.
  - intro H. revert Ht. induction H as [|a b s t Hab _ IH]; intro Ht;
      [reflexivity|].
    cbn in Ht. apply andb_true_iff in Ht as [Hb Ht].
    cbn. apply (same_letter_upper a b Hb) in Hab. now rewrite Hab, IH.
  - revert t Ht. induction s as [|a s IH]; intros [|b t] Ht H; cbn in H;
      try discriminate; [constructor|].
    cbn in Ht. apply andb_true_iff in Ht as [Hb Ht].
    injection H as Hc Hs. constructor.
    + now apply (same_letter_upper a b Hb).
    + now apply IH.
Qed.

Lemma toUpperCase_app (s t : string) :
  toUpperCase (s ++ t) = toUpperCase s ++ toUpperCase t.
Proof. induction s as [|c s IH]; cbn; [reflexivity|now rewrite IH]. Qed.

(** A split of the upper-cased string is the image of a split of the
    string. *)
Lemma toUpperCase_split (s a b : string) :
  toUpperCase s = a ++ b ->
  exists s1 s2, s = s1 ++ s2 /\ toUpperCase s1 = a /\ toUpperCase s2 = b.
Proof.
  revert s. induction a as [|c a IH]; intros s H.
  - exists "", s. auto.
  - destruct s as [|d s]; cbn in H; [discriminate|].
    injection H as Hc Hs. destruct (IH _ Hs) as (s1 & s2 & -> & H1 & H2).
    exists (String d s1), s2. cbn. now rewrite Hc, H1.
Qed.

Lemma prefix_app (p s : string) :
  prefix p s = true <-> exists post, s = p ++ post.
Proof.
  revert s. induction p as [|c p IH]; intros s.
  - destruct s; cbn; split; eauto.
  - destruct s as [|d s]; cbn.
    + split; [discriminate|]. intros [post H]. discriminate.
    + destruct (ascii_dec c d) as [->|Hne].
      * rewrite IH. split; intros [post H]; exists post.
        -- now rewrite H.
        -- now injection H.
      * split; [discriminate|]. intros [post H]. injection H as Hc _.
        now elim Hne.
Qed.

(** [includes] finds exactly the substrings. *)
Lemma includes_spec (s pat : string) :
  includes s pat = true <-> exists pre post, s = pre ++ pat ++ post.
Proof.
  induction s as [|c s IH]; cbn [includes].
  - destruct (prefix pat "") eqn:P.
    + split; [|reflexivity]. intros _. apply prefix_app in P as [post H].
      exists "", post. exact H.
    + split; [discriminate|]. intros (pre & post & H).
      destruct pre; [|discriminate]. cbn in H.
      assert (prefix pat "" = true) by (apply prefix_app; eauto). congruence.
  - destruct (prefix pat (String c s)) eqn:P.
    + split; [|reflexivity]. intros _. apply prefix_app in P as [post H].
      exists "", post. exact H.
    + rewrite IH. split.
      * intros (pre & post & ->). exists (String c pre), post. reflexivity.
      * intros (pre & post & H). destruct pre as [|d pre].
        -- cbn in H.
           assert (prefix pat (String c s) = true) by (apply prefix_app; eauto).
           congruence.
        -- injection H as _ H. eauto.
Qed.

(** The test of the source, [label.toUpperCase().includes(WORD)], decides
    case-insensitive containment of [word] whenever [word] is spelt with
    the letters a to z and A to Z and [WORD] is its upper-case spelling. *)
Lemma includes_upper_ci (word label : string) :
  plain_letters word = true ->
  includes (toUpperCase label) (toUpperCase word) = true
  <-> ci_contains word label.
Proof.
  intro Hw. rewrite includes_spec. unfold ci_contains. split.
  - intros (pre & post & H).
    apply toUpperCase_split in H as (s1 & s23 & -> & H1 & H23).
    apply toUpperCase_split in H23 as (s2 & s3 & -> & H2 & H3).
    exists s1, s2, s3. split; [reflexivity|]. now apply ci_eq_upper.
  - intros (pre & mid & post & -> & H). apply (ci_eq_upper _ _ Hw) in H.
    exists (toUpperCase pre), (toUpperCase post).
    now rewrite !toUpperCase_app, H.
Qed.

End StringFacts.

(** ** Doubles *)

Section DoubleFacts.

Local Open Scope Z_scope.

Lemma digits2_pos_bounds (m : positive) :
  2 ^ (Zpos (digits2_pos m) - 1) <= Zpos m < 2 ^ Zpos (digits2_pos m).
Proof.
  induction m as [m IH|m IH|]; cbn [digits2_pos].
  - rewrite Pos2Z.inj_succ, Z.pow_succ_r by lia.
    replace (Z.succ (Zpos (digits2_pos m)) - 1)
      with (Z.succ (Zpos (digits2_pos m) - 1)) by lia.
    rewrite Z.pow_succ_r by lia. lia.
  - rewrite Pos2Z.inj_succ, Z.pow_succ_r by lia.
    replace (Z.succ (Zpos (digits2_pos m)) - 1)
      with (Z.succ (Zpos (digits2_pos m) - 1)) by lia.
    rewrite Z.pow_succ_r by lia. lia.
  - cbn. lia.
Qed.

(** A canonical mantissa has at most 53 bits. *)
Lemma bounded_digits (m : positive) (e : Z) :
  bounded prec emax m e = true ->
  Zpos (digits2_pos m) <= 53 /\ -1074 <= e <= 971.
Proof.
  unfold bounded, canonical_mantissa, fexp, emin, prec, emax.
  rewrite andb_true_iff, Z.eqb_eq, Z.leb_le. lia.
Qed.

Lemma bounded_mantissa_lt (m : positive) (e : Z) :
  bounded prec emax m e = true -> Zpos m < 2 ^ 53.
Proof.
  intro H. apply bounded_digits in H as [H _].
  pose proof (digits2_pos_bounds m) as [_ Hm].
  eapply Z.lt_le_trans; [exact Hm|]. apply Z.pow_le_mono_r; lia.
Qed.

(** Multiplying a double by 1 is exact. *)
Lemma mul_one_exact (s : bool) (m : positive) (e : Z) :
  bounded prec emax m e = true ->
  mul (S754_finite s m e) one = S754_finite s m e.
Proof.
  intro Hb. pose proof Hb as Hb'.
  unfold bounded, canonical_mantissa in Hb'.
  apply andb_true_iff in Hb' as [Hc He]. apply Z.eqb_eq in Hc.
  unfold mul, one, SFmul. rewrite xorb_false_r, Pos.mul_comm.
  cbn [Pos.mul]. unfold binary_round_aux, shr_fexp.
  cbn [Zdigits2 digits2_pos].
  match goal with |- context [fexp prec emax (Zpos ?d + (e + -52))] =>
    replace (Zpos d + (e + -52)) with (Zpos (digits2_pos m) + e)
      by (rewrite !Pos2Z.inj_succ; lia) end.
  rewrite Hc. replace (e - (e + -52)) with 52 by lia.
  cbn [shr shr_record_of_loc iter_pos shr_1 loc_of_shr_record
         round_nearest_even shr_m Zdigits2 orb].
  replace (e + -52 + 52) with e by lia.
  rewrite Hc, Z.sub_diag. cbn [shr shr_m]. now rewrite He.
Qed.
(** *** Right shifts and rounding of the multiplication *)

Lemma shr_1_m (mrs : shr_record) :
  0 <= shr_m mrs -> shr_m (shr_1 mrs) = shr_m mrs / 2.
Proof.
  destruct mrs as [[|[p|p|]|p] r s]; cbn [shr_m shr_1]; intro H;
    try reflexivity; try lia.
  - rewrite Pos2Z.inj_xI. apply Z.div_unique with 1; lia.
  - rewrite Pos2Z.inj_xO. apply Z.div_unique with 0; lia.
Qed.

Lemma shr_m_iter (p : positive) (mrs : shr_record) :
  0 <= shr_m mrs ->
  shr_m (iter_pos shr_1 p mrs) = shr_m mrs / 2 ^ Zpos p.
Proof.
  revert mrs. induction p as [p IH|p IH|]; intros mrs H; cbn [iter_pos].
  - assert (H1 : 0 <= shr_m (shr_1 mrs))
      by (rewrite shr_1_m by assumption; apply Z.div_pos; lia).
    assert (H2 : 0 <= shr_m (iter_pos shr_1 p (shr_1 mrs)))
      by (rewrite IH by assumption; apply Z.div_pos; [|apply Z.pow_pos_nonneg]; lia).
    rewrite IH, IH, shr_1_m by assumption.
    assert (Hp : 0 < 2 ^ Zpos p) by (apply Z.pow_pos_nonneg; lia).
    rewrite !Z.div_div by lia. f_equal.
    replace (Zpos p~1) with (1 + Zpos p + Zpos p) by lia.
    rewrite !Z.pow_add_r by lia. lia.
  - assert (H2 : 0 <= shr_m (iter_pos shr_1 p mrs))
      by (rewrite IH by assumption; apply Z.div_pos; [|apply Z.pow_pos_nonneg]; lia).
    rewrite IH, IH by assumption.
    assert (Hp : 0 < 2 ^ Zpos p) by (apply Z.pow_pos_nonneg; lia).
    rewrite !Z.div_div by lia. f_equal.
    replace (Zpos p~0) with (Zpos p + Zpos p) by lia.
    rewrite !Z.pow_add_r by lia. lia.
  - now rewrite shr_1_m.
Qed.

(** [shr] by [n] divides the mantissa by [2^n] and adds [n] to the
    exponent; a non-positive [n] shifts nothing. *)
Lemma shr_spec (mrs mrs' : shr_record) (e e' n : Z) :
  shr mrs e n = (mrs', e') ->
  0 <= shr_m mrs ->
  shr_m mrs' = shr_m mrs / 2 ^ Z.max 0 n /\ e' = e + Z.max 0 n.
Proof.
  unfold shr. destruct n as [|p|p]; intros H Hm; injection H as <- <-.
  - cbn. rewrite Z.div_1_r. lia.
  - rewrite shr_m_iter by assumption.
    replace (Z.max 0 (Zpos p)) with (Zpos p) by lia. auto.
  - replace (Z.max 0 (Zneg p)) with 0 by lia. cbn. rewrite Z.div_1_r. lia.
Qed.

Lemma round_nearest_even_bounds (m : Z) (l : location) :
  m <= round_nearest_even m l <= m + 1.
Proof.
  destruct l as [|[| |]]; cbn [round_nearest_even]; try lia.
  destruct (Z.even m); lia.
Qed.

Lemma Zdigits2_le (m k : Z) :
  0 <= k -> 0 <= m <= 2 ^ k -> Zdigits2 m <= k + 1.
Proof.
  intros Hk [H0 Hm]. destruct m as [|p|p]; cbn [Zdigits2]; [lia| |lia].
  pose proof (digits2_pos_bounds p) as [Hlo _].
  destruct (Z.le_gt_cases (Zpos (digits2_pos p)) (k + 1)) as [|Hgt]; [assumption|].
  assert (2 ^ (k + 1) <= 2 ^ (Zpos (digits2_pos p) - 1))
    by (apply Z.pow_le_mono_r; lia).
  rewrite Z.pow_add_r in H by lia. 
  assert (0 < 2 ^ k) by (apply Z.pow_pos_nonneg; lia). lia.
Qed.

(** The product of a double below 2 with 100 is a non-negative double
    below 2^9: the multiplication neither overflows nor leaves the range in
    which [toFixed] prints digits. *)
Lemma mul_hundred_small (m : positive) (e : Z) :
  bounded prec emax m e = true -> e <= -52 ->
  mul (S754_finite false m e) hundred = S754_zero false
  \/ exists m' e',
       mul (S754_finite false m e) hundred = S754_finite false m' e'
       /\ numerator m' e' < 2 ^ 9 * denominator e'.
Proof.
  intros Hb He.
  pose proof (bounded_digits _ _ Hb) as [_ [Hemin _]].
  pose proof (bounded_mantissa_lt _ _ Hb) as Hm.
  unfold mul, hundred, SFmul. cbn [xorb].
  remember (Zpos (m * 7036874417766400)) as M eqn:HM.
  assert (HM' : 0 < M < 2 ^ 106).
  { subst M. rewrite Pos2Z.inj_mul. change (2 ^ 106) with (2 ^ 53 * 2 ^ 53).
    split; [lia|]. 
    apply Z.lt_trans with (Zpos m * 2 ^ 53); [|apply Z.mul_lt_mono_pos_r; lia].
    apply Z.mul_lt_mono_pos_l; lia. }
  clear HM. remember (e + -46) as E eqn:HE.
  assert (HE' : -1120 <= E <= -98) by lia. clear HE.
  unfold binary_round_aux, shr_fexp.
  assert (Hd : Zdigits2 M <= 107) by (apply (Zdigits2_le M 106); lia).
  set (n1 := fexp prec emax (Zdigits2 M + E) - E).
  assert (Hn1 : E + Z.max 0 n1 <= -44)
    by (unfold n1, fexp, emin, prec, emax; lia).
  destruct (shr (shr_record_of_loc M loc_Exact) E n1) as [mrs1 e1] eqn:S1.
  apply shr_spec in S1 as [Hm1 He1]; [|cbn; lia].
  cbn [shr_record_of_loc shr_m] in Hm1.
  set (k1 := Z.max 0 n1) in *.
  assert (Hk1 : 0 <= k1) by lia.
  assert (Hp1 : 0 < 2 ^ k1) by (apply Z.pow_pos_nonneg; lia).
  assert (Hm1lo : 0 <= shr_m mrs1) by (rewrite Hm1; apply Z.div_pos; lia).
  assert (Hm1hi : shr_m mrs1 * 2 ^ k1 <= M)
    by (rewrite Hm1, Z.mul_comm; apply Z.mul_div_le; lia).
  pose proof (round_nearest_even_bounds (shr_m mrs1) (loc_of_shr_record mrs1))
    as Hm2.
  set (m2 := round_nearest_even (shr_m mrs1) (loc_of_shr_record mrs1)) in *.
  assert (Hm1M : shr_m mrs1 <= M).
  { apply Z.le_trans with (shr_m mrs1 * 2 ^ k1); [|assumption].
    rewrite <- (Z.mul_1_r (shr_m mrs1)) at 1.
    apply Z.mul_le_mono_nonneg_l; lia. }
  assert (Hm2hi : m2 <= 2 ^ 106) by lia.
  assert (Hd2 : Zdigits2 m2 <= 107) by (apply (Zdigits2_le m2 106); lia).
  set (n2 := fexp prec emax (Zdigits2 m2 + e1) - e1).
  assert (Hn2 : e1 + Z.max 0 n2 <= 10)
    by (unfold n2, fexp, emin, prec, emax; lia).
  destruct (shr (shr_record_of_loc m2 loc_Exact) e1 n2) as [mrs2 e2] eqn:S2.
  apply shr_spec in S2 as [Hm3 He2]; [|cbn; lia].
  cbn [shr_record_of_loc shr_m] in Hm3.
  set (k2 := Z.max 0 n2) in *.
  assert (Hk2 : 0 <= k2) by lia.
  assert (Hp2 : 0 < 2 ^ k2) by (apply Z.pow_pos_nonneg; lia).
  assert (Hm3lo : 0 <= shr_m mrs2) by (rewrite Hm3; apply Z.div_pos; lia).
  assert (Hm3hi : shr_m mrs2 * 2 ^ k2 <= m2)
    by (rewrite Hm3, Z.mul_comm; apply Z.mul_div_le; lia).
  destruct (shr_m mrs2) as [|m3|m3] eqn:E3; [now left| |lia].
  right. exists m3, e2.
  replace (e2 <=? emax - prec) with true
    by (symmetry; apply Z.leb_le; unfold emax, prec; lia).
  split; [reflexivity|].
  assert (HU : 0 < 2 ^ (- E - 98)) by (apply Z.pow_pos_nonneg; lia).
  assert (HnE : 2 ^ (- E) = 2 ^ 98 * 2 ^ (- E - 98))
    by (rewrite <- Z.pow_add_r by lia; f_equal; lia).
  assert (HP1 : 2 ^ k1 <= 2 ^ 54 * 2 ^ (- E - 98))
    by (rewrite <- Z.pow_add_r by lia; apply Z.pow_le_mono_r; lia).
  assert (HA : Zpos m3 * (2 ^ k1 * 2 ^ k2) < 2 ^ 9 * 2 ^ (- E)).
  { rewrite HnE. apply Z.le_lt_trans with (M + 2 ^ k1).
    - apply Z.le_trans with ((shr_m mrs1 + 1) * 2 ^ k1); [|lia].
      rewrite (Z.mul_comm (2 ^ k1)), Z.mul_assoc.
      apply Z.mul_le_mono_nonneg_r; lia.
    - change (2 ^ 9) with 512. change (2 ^ 98) with 316912650057057350374175801344.
      change (2 ^ 54) with 18014398509481984 in HP1.
      change (2 ^ 106) with 81129638414606681695789005144064 in HM'.
      lia. }
  unfold numerator, denominator.
  destruct (Z.leb_spec 0 e2) as [Hpos|Hneg].
  - assert (Hs : 2 ^ k1 * 2 ^ k2 = 2 ^ e2 * 2 ^ (- E))
      by (rewrite <- !Z.pow_add_r by lia; f_equal; lia).
    rewrite Hs, Z.mul_assoc in HA.
    apply Z.mul_lt_mono_pos_r in HA; [lia|apply Z.pow_pos_nonneg; lia].
  - assert (Hs : 2 ^ (- E) = 2 ^ (- e2) * (2 ^ k1 * 2 ^ k2))
      by (rewrite <- !Z.pow_add_r by lia; f_equal; lia).
    rewrite Hs, (Z.mul_assoc (2 ^ 9)) in HA.
    apply Z.mul_lt_mono_pos_r in HA; [lia|].
    apply Z.mul_pos_pos; assumption.
Qed.

End DoubleFacts.

(** ** Decimal numerals and the rounding of [toFixed] *)

Section NumeralFacts.

Local Open Scope Z_scope.

Lemma digit_value_digit (d : Z) :
  0 <= d <= 9 ->
  exists c, digit d = String c EmptyString /\ digit_value c = Some d.
Proof.
  intros H. exists (ascii_of_N (48 + Z.to_N d)). split; [reflexivity|].
  unfold digit_value. cbv zeta.
  rewrite N_ascii_embedding by lia.
  replace ((48 <=? 48 + Z.to_N d)%N && (48 + Z.to_N d <=? 57)%N)%bool with true.
  - f_equal. lia.
  - symmetry. apply andb_true_iff. split; apply N.leb_le; lia.
Qed.

Lemma numeral_value_from_app (s t : string) (acc : Z) :
  numeral_value_from acc (s ++ t)
  = match numeral_value_from acc s with
    | Some a => numeral_value_from a t
    | None => None
    end.
Proof.
  revert acc. induction s as [|c s IH]; intro acc; cbn; [reflexivity|].
  destruct (digit_value c); [apply IH|reflexivity].
Qed.

Lemma numeral_value_from_digit (d acc : Z) :
  0 <= d <= 9 -> numeral_value_from acc (digit d) = Some (10 * acc + d).
Proof.
  intro H. destruct (digit_value_digit d H) as (c & -> & Hc).
  cbn. now rewrite Hc.
Qed.

Lemma digits_fuel_nonempty (fuel : nat) (n : Z) :
  digits_fuel fuel n <> EmptyString.
Proof.
  destruct fuel as [|k]; cbn; [discriminate|].
  destruct (n <? 10); [discriminate|].
  destruct (digits_fuel k (n / 10)); discriminate.
Qed.

Lemma digits_fuel_value (fuel : nat) (n : Z) :
  0 <= n < 10 ^ (Z.of_nat fuel + 1) ->
  numeral_value_from 0 (digits_fuel fuel n) = Some n.
Proof.
  revert n. induction fuel as [|k IH]; intros n H.
  - cbn in H. cbn [digits_fuel]. rewrite numeral_value_from_digit; [f_equal|]; lia.
  - cbn [digits_fuel]. destruct (Z.ltb_spec n 10) as [Hlt|Hge].
    + rewrite numeral_value_from_digit; [f_equal|]; lia.
    + rewrite numeral_value_from_app, IH.
      * rewrite numeral_value_from_digit
          by (pose proof (Z.mod_pos_bound n 10); lia).
        f_equal. pose proof (Z.div_mod n 10). lia.
      * split; [apply Z.div_pos; lia|].
        apply Z.div_lt_upper_bound; [lia|].
        rewrite <- Z.pow_succ_r by lia.
        replace (Z.succ (Z.of_nat k + 1)) with (Z.of_nat (S k) + 1) by lia.
        apply H.
Qed.

Lemma digits_fuel_indep (f1 f2 : nat) (n : Z) :
  0 <= n < 10 ^ (Z.of_nat f1 + 1) ->
  0 <= n < 10 ^ (Z.of_nat f2 + 1) ->
  digits_fuel f1 n = digits_fuel f2 n.
Proof.
  revert f2 n. induction f1 as [|k IH]; intros f2 n H1 H2.
  - cbn in H1. destruct f2; cbn [digits_fuel]; [reflexivity|].
    destruct (Z.ltb_spec n 10); [reflexivity|lia].
  - cbn [digits_fuel]. destruct (Z.ltb_spec n 10) as [Hlt|Hge].
    + destruct f2; cbn [digits_fuel]; [reflexivity|].
      destruct (Z.ltb_spec n 10); [reflexivity|lia].
    + destruct f2 as [|k2]; [cbn in H2; lia|]. cbn [digits_fuel].
      destruct (Z.ltb_spec n 10); [lia|]. f_equal. apply IH.
      * split; [apply Z.div_pos; lia|].
        apply Z.div_lt_upper_bound; [lia|].
        rewrite <- Z.pow_succ_r by lia.
        replace (Z.succ (Z.of_nat k + 1)) with (Z.of_nat (S k) + 1) by lia.
        apply H1.
      * split; [apply Z.div_pos; lia|].
        apply Z.div_lt_upper_bound; [lia|].
        rewrite <- Z.pow_succ_r by lia.
        replace (Z.succ (Z.of_nat k2 + 1)) with (Z.of_nat (S k2) + 1) by lia.
        apply H2.
Qed.

(** The fuel of [digits] suffices. *)
Lemma digits_fuel_enough (n : Z) :
  0 <= n -> 0 <= n < 10 ^ (Z.of_nat (Z.to_nat (Z.log2 n)) + 1).
Proof.
  intro H. split; [assumption|].
  rewrite Z2Nat.id by apply Z.log2_nonneg.
  destruct (Z.eq_dec n 0) as [->|Hn]; [cbn; lia|].
  pose proof (Z.log2_spec n ltac:(lia)) as [_ Hhi].
  eapply Z.lt_le_trans; [exact Hhi|].
  replace (Z.succ (Z.log2 n)) with (Z.log2 n + 1) by lia.
  apply Z.pow_le_mono_l. lia.
Qed.

(** [digits] writes the number it is given. *)
Lemma numeral_value_digits (n : Z) :
  0 <= n -> numeral_value (digits n) = Some n.
Proof.
  intro H. unfold numeral_value, digits.
  pose proof (digits_fuel_nonempty (Z.to_nat (Z.log2 n)) n) as Hne.
  destruct (digits_fuel (Z.to_nat (Z.log2 n)) n) eqn:E; [congruence|].
  rewrite <- E. apply digits_fuel_value, digits_fuel_enough, H.
Qed.

Lemma digits_small (n : Z) : 0 <= n < 10 -> digits n = digit n.
Proof.
  intro H. unfold digits. destruct (Z.to_nat (Z.log2 n)); cbn [digits_fuel];
    [reflexivity|]. destruct (Z.ltb_spec n 10); [reflexivity|lia].
Qed.

Lemma digits_step (n : Z) :
  10 <= n -> digits n = digits (n / 10) ++ digit (n mod 10).
Proof.
  intro H. unfold digits.
  pose proof (digits_fuel_enough n ltac:(lia)) as Hn.
  destruct (Z.to_nat (Z.log2 n)) as [|k] eqn:Ek; [cbn in Hn; lia|].
  cbn [digits_fuel]. destruct (Z.ltb_spec n 10); [lia|]. f_equal.
  apply digits_fuel_indep.
  - split; [apply Z.div_pos; lia|].
    apply Z.div_lt_upper_bound; [lia|].
    rewrite <- Z.pow_succ_r by lia.
    replace (Z.succ (Z.of_nat k + 1)) with (Z.of_nat (S k) + 1) by lia.
    apply Hn.
  - apply digits_fuel_enough, Z.div_pos; lia.
Qed.

Lemma length_app (a b : string) :
  String.length (a ++ b) = (String.length a + String.length b)%nat.
Proof. induction a as [|c a IH]; cbn; [reflexivity|now rewrite IH]. Qed.

Lemma substring_app_l (a b : string) :
  substring 0 (String.length a) (a ++ b) = a.
Proof.
  induction a as [|c a IH]; cbn.
  - destruct b; reflexivity.
  - now rewrite IH.
Qed.

Lemma substring_app_r (a : string) (c : ascii) :
  substring (String.length a) 1 (a ++ String c EmptyString)
  = String c EmptyString.
Proof. induction a as [|d a IH]; cbn; [reflexivity|exact IH]. Qed.

(** With one fraction digit, [place_point] writes the tens of [n], a point,
    and the unit digit of [n]. *)
Lemma place_point_1 (n : Z) :
  0 <= n ->
  place_point n 1 = digits (n / 10) ++ "." ++ digit (n mod 10).
Proof.
  intro H. unfold place_point. destruct (Z.lt_ge_cases n 10) as [Hlt|Hge].
  - rewrite Z.div_small, Z.mod_small by lia.
    rewrite (digits_small n) by lia. reflexivity.
  - rewrite (digits_step n Hge).
    pose proof (Z.mod_pos_bound n 10 ltac:(lia)) as Hd.
    destruct (digit_value_digit (n mod 10) ltac:(lia)) as (c & -> & _).
    set (a := digits (n / 10)).
    assert (Ha : String.length a <> 0%nat).
    { unfold a, digits. intro Hz.
      apply (digits_fuel_nonempty (Z.to_nat (Z.log2 (n / 10))) (n / 10)).
      destruct (digits_fuel _ _); [reflexivity|discriminate]. }
    rewrite length_app. cbn [String.length].
    destruct (Nat.leb_spec (String.length a + 1) 1) as [Hle|_]; [lia|].
    rewrite length_app. cbn [String.length].
    replace (String.length a + 1 - 1)%nat with (String.length a) by lia.
    now rewrite substring_app_l, substring_app_r.
Qed.

Lemma place_point_tenths (n : Z) :
  0 <= n -> denotes_tenths (place_point n 1) n.
Proof.
  intro H. rewrite place_point_1 by assumption.
  pose proof (Z.mod_pos_bound n 10 ltac:(lia)) as Hd.
  destruct (digit_value_digit (n mod 10) ltac:(lia)) as (c & Hc & Hv).
  exists (digits (n / 10)), c, (n / 10), (n mod 10). rewrite Hc.
  split; [reflexivity|]. split; [apply numeral_value_digits, Z.div_pos; lia|].
  split; [assumption|]. apply Z.div_mod. lia.
Qed.

(** *** The integer chosen by [toFixed] *)

Lemma numerator_pos (m : positive) (e : Z) : 0 < numerator m e.
Proof.
  unfold numerator. destruct (Z.leb_spec 0 e); [|lia].
  apply Z.mul_pos_pos; [lia|apply Z.pow_pos_nonneg; lia].
Qed.

Lemma denominator_pos (e : Z) : 0 < denominator e.
Proof.
  unfold denominator. destruct (Z.leb_spec 0 e); [lia|].
  apply Z.pow_pos_nonneg; lia.
Qed.

Lemma nearest_scaled_nonneg (m : positive) (e : Z) (f : nat) :
  0 <= nearest_scaled m e f.
Proof.
  unfold nearest_scaled.
  pose proof (numerator_pos m e). pose proof (denominator_pos e).
  assert (0 < 10 ^ Z.of_nat f) by (apply Z.pow_pos_nonneg; lia).
  apply Z.div_pos; nia.
Qed.

(** Rounding to the nearest integer, ties upward, in integer arithmetic:
    [(2 a + d) / (2 d)] is nearest to [a / d]. *)
Lemma round_half_up_nearest (a d k : Z) :
  0 < d ->
  let n := (2 * a + d) / (2 * d) in
  Z.abs (n * d - a) <= Z.abs (k * d - a)
  /\ (Z.abs (k * d - a) = Z.abs (n * d - a) -> k <= n).
Proof.
  intros Hd n.
  pose proof (Z.div_mod (2 * a + d) (2 * d) ltac:(lia)) as Hdm.
  pose proof (Z.mod_pos_bound (2 * a + d) (2 * d) ltac:(lia)) as Hr.
  fold n in Hdm. set (r := (2 * a + d) mod (2 * d)) in *.
  destruct (Z.lt_trichotomy k n) as [Hlt|[->|Hgt]].
  - split; [|lia]. assert (k * d <= n * d - d) by nia. lia.
  - split; lia.
  - assert (n * d + d <= k * d) by nia. split; lia.
Qed.

Lemma nearest_tenth_zero : nearest_tenth 0%Q 0.
Proof.
  intro k. unfold Qminus, Qplus, Qopp, Qabs, Qle, Qeq. cbn [Qnum Qden].
  split; lia.
Qed.

(** The integer [toFixed(1)] prints for [m * 2^e], read as tenths, is the
    nearest multiple of one tenth. *)
Lemma nearest_tenth_finite (m : positive) (e : Z) :
  nearest_tenth (Qmake (numerator m e) (Z.to_pos (denominator e)))
                (nearest_scaled m e 1).
Proof.
  intro k. pose proof (denominator_pos e) as Hd.
  pose proof (round_half_up_nearest (10 * numerator m e) (denominator e) k Hd)
    as Hn. cbv zeta in Hn.
  unfold nearest_scaled. change (10 ^ Z.of_nat 1) with 10.
  replace (2 * 10 * numerator m e) with (2 * (10 * numerator m e)) by lia.
  set (n := (2 * (10 * numerator m e) + denominator e) / (2 * denominator e)) in *.
  unfold Qminus, Qplus, Qopp, Qabs, Qle, Qeq. cbn [Qnum Qden].
  rewrite Z2Pos.id by assumption.
  replace (n * denominator e + - numerator m e * 10)
    with (n * denominator e - 10 * numerator m e) by lia.
  replace (k * denominator e + - numerator m e * 10)
    with (k * denominator e - 10 * numerator m e) by lia.
  destruct Hn as [Hle Htie]. split.
  - apply Z.mul_le_mono_nonneg_r; [lia|assumption].
  - intro Heq. apply Htie. eapply Z.mul_reg_r; [|exact Heq]. lia.
Qed.

End NumeralFacts.

(** ** The handlers *)

Section AppFacts.

Lemma upper_char_fixed (c : ascii) :
  upper_outside c = false ->
  upper_char c = c <-> lower_case_letter c = false.
Proof.
  intro Ho. apply upper_outside_spec in Ho.
  rewrite <- not_true_iff_false, lower_case_letter_spec.
  pose proof (N_of_ascii_lt c) as Hlt.
  destruct (upper_char_code c) as [[Hr Ec]|(H1 & H2 & Ec)].
  - split.
    + intro H. rewrite H in Ec. lia.
    + intro H. exfalso. apply H. lia.
  - split; [|intros _; now apply N_of_ascii_inj].
    intros _. lia.
Qed.

(** On the strings it models faithfully, upper-casing leaves exactly those
    without a lower-case letter unchanged. *)
Lemma toUpperCase_fixed (s : string) :
  upper_within s = true ->
  toUpperCase s = s <-> no_lower_case s.
Proof.
  induction s as [|c s IH]; cbn; [tauto|].
  intro H. apply andb_true_iff in H as [Hc Hs]. apply negb_true_iff in Hc.
  rewrite <- (IH Hs), <- (upper_char_fixed c Hc). split.
  - intro H. now injection H.
  - intros [-> ->]. reflexivity.
Qed.

Lemma trimStart_empty (s : string) : trimStart s = EmptyString <-> all_white s.
Proof.
  induction s as [|c s IH]; cbn; [tauto|].
  destruct (is_white c); [rewrite IH; tauto|].
  split; [discriminate|]. intros [H _]. discriminate.
Qed.

Lemma trimEnd_empty (s : string) : trimEnd s = EmptyString <-> all_white s.
Proof.
  induction s as [|c s IH]; cbn; [tauto|].
  destruct (trimEnd s) eqn:E.
  - destruct (is_white c).
    + split; [intros _; split; [reflexivity|now apply IH]|reflexivity].
    + split; [discriminate|]. intros [H _]. discriminate.
  - split; [discriminate|]. intros [_ H]. apply IH in H. discriminate.
Qed.

Lemma all_white_trimStart (s : string) : all_white (trimStart s) -> all_white s.
Proof.
  induction s as [|c s IH]; cbn; [tauto|].
  destruct (is_white c) eqn:W; [auto|].
  cbn. rewrite W. intros [H _]. discriminate.
Qed.

(** A string trims to the empty string exactly when it consists of white
    space only. *)
Lemma trim_empty (s : string) : trim s = EmptyString <-> all_white s.
Proof.
  unfold trim. rewrite trimEnd_empty. split.
  - apply all_white_trimStart.
  - intro H. apply trimStart_empty in H. now rewrite H.
Qed.

(** The guard [!text || text.trim().length === 0] holds exactly for the
    strings that are empty after trimming. *)
Lemma blank_spec (t : string) : blank t = true <-> all_white t.
Proof.
  unfold blank. rewrite orb_true_iff, Nat.eqb_eq, <- trim_empty. split.
  - intros [H|H].
    + destruct t; [reflexivity|discriminate].
    + destruct (trim t); [reflexivity|discriminate].
  - intros ->. now right.
Qed.

(** The outcome of [analyzeSentiment] on its normal path. *)
Lemma analyzeSentiment_ok (Number_toString : number -> string)
      (st : State) (p : pipeline) (t : string)
      (primary : RawClassification) (rest : list RawClassification) :
  sentimentPipeline st = Some p ->
  blank t = false ->
  p t = Ok (Results (primary :: rest)) ->
  analyzeSentiment Number_toString (Some t) st
  = (Ok {| label := toUpperCase (raw_label primary);
           score := raw_score primary;
           sentiment := categorize (toUpperCase (raw_label primary))
                                   (raw_score primary);
           confidence := toFixed Number_toString
                                 (mul (raw_score primary) hundred) 1 |},
     st, []).
Proof.
  intros Hp Hb Hr. unfold analyzeSentiment, bind, gets, lift, ret.
  now rewrite Hp, Hb, Hr.
Qed.

(** [categorize] in terms of case-insensitive containment. *)
Lemma categorize_spec (l : string) (s : number) :
  let c := categorize (toUpperCase l) s in
  (c = "positive" <-> ci_contains "positive" l /\ gt s half = true)
  /\ (c = "negative" <->
      ci_contains "negative" l /\ ~ ci_contains "positive" l
      /\ gt s half = true)
  /\ (c = "neutral" <->
      ~ (gt s half = true
         /\ (ci_contains "positive" l \/ ci_contains "negative" l))).
Proof.
  cbv zeta. unfold categorize.
  pose proof (includes_upper_ci "positive" l eq_refl) as Hpos.
  pose proof (includes_upper_ci "negative" l eq_refl) as Hneg.
  change (toUpperCase "positive") with "POSITIVE" in Hpos.
  change (toUpperCase "negative") with "NEGATIVE" in Hneg.
  destruct (includes (toUpperCase l) "POSITIVE") eqn:P,
           (includes (toUpperCase l) "NEGATIVE") eqn:N,
           (gt s half) eqn:G; cbn [andb];
    repeat split; try discriminate; try reflexivity; try tauto;
    intuition (try discriminate; try congruence).
Qed.

End AppFacts.

Section ThresholdFacts.
Local Open Scope Z_scope.
Lemma gt_half_value (x : number) (v : Q) :
  wf x -> value x = Some v -> (gt x half = true <-> (1 # 2 < v)%Q).
Proof.
  unfold wf. destruct x as [s|s| |s m e]; cbn [valid_binary value];
    intros Hb Hv; try discriminate; injection Hv as <-.
  - cbn. split; [discriminate|]. unfold Qlt. cbn. lia.
  - pose proof (bounded_digits _ _ Hb) as [Hd [Hlo Hhi]].
    pose proof (bounded_mantissa_lt _ _ Hb) as Hm.
    pose proof (digits2_pos_bounds m) as [Hmlo _].
    pose proof (denominator_pos e) as Hden.
    pose proof (numerator_pos m e) as Hnum.
    unfold Qlt. cbn [Qnum Qden]. rewrite Z2Pos.id by assumption.
    unfold gt, half, SFltb, SFcompare. destruct s; cbn [cond_Zopp].
    + split; [discriminate|lia].
    + destruct (Z.compare_spec (-53) e) as [<-|Hlt|Hgt].
      * unfold numerator, denominator. cbn [Z.leb Z.compare Z.opp].
        rewrite Pos.compare_cont_spec.
        change (4503599627370496 ?= m)%positive
          with (Zpos 4503599627370496 ?= Zpos m).
        change (2 ^ 53) with 9007199254740992.
        destruct (Z.compare_spec (Zpos 4503599627370496) (Zpos m)) as [H|H|H];
          cbn [Pos.switch_Eq]; (split; [try discriminate|try reflexivity]).
        -- intro H2. exfalso. timeout 20 lia.
        -- intros _. timeout 20 lia.
        -- intro H2. exfalso. timeout 20 lia.
      * unfold bounded, canonical_mantissa, fexp, emin, prec, emax in Hb.
        apply andb_true_iff in Hb as [Hc _]. apply Z.eqb_eq in Hc.
        split; [intros _|reflexivity].
        unfold numerator, denominator in *.
        destruct (Z.leb_spec 0 e) as [He|He]; [timeout 20 lia|].
        assert (Hd53 : Zpos (digits2_pos m) = 53) by (timeout 20 lia).
        rewrite Hd53 in Hmlo. change (2 ^ (53 - 1)) with 4503599627370496 in Hmlo.
        assert (2 ^ (- e) <= 2 ^ 52) by (apply Z.pow_le_mono_r; lia).
        change (2 ^ 52) with 4503599627370496 in *. timeout 20 lia.
      * split; [discriminate|]. intro H. exfalso.
        unfold numerator, denominator in *.
        destruct (Z.leb_spec 0 e) as [He|He]; [timeout 20 lia|].
        assert (2 ^ 54 <= 2 ^ (- e)) by (apply Z.pow_le_mono_r; lia).
        change (2 ^ 54) with 18014398509481984 in *.
        change (2 ^ 53) with 9007199254740992 in *. timeout 20 lia.
Qed.

End ThresholdFacts.

(** ** Scores in the unit interval *)

Section UnitIntervalFacts.

Local Open Scope Z_scope.

Variable Number_toString : number -> string.

(** A well-formed Number between 0 and 1 is a zero or a positive double
    with exponent at most -52. *)
Lemma unit_interval_shape (x : number) :
  wf x -> le zero x = true -> le x one = true ->
  (exists s, x = S754_zero s)
  \/ (exists m e, x = S754_finite false m e
                  /\ bounded prec emax m e = true /\ e <= -52).
Proof.
  unfold wf, le, zero, one, SFleb, SFcompare.
  destruct x as [s|s| |s m e]; cbn [valid_binary]; intros Hb H0 H1.
  - left. now exists s.
  - destruct s; discriminate.
  - discriminate.
  - destruct s; [discriminate|]. right. exists m, e.
    split; [reflexivity|]. split; [assumption|].
    destruct (Z.compare_spec e (-52)); [|clear H1|discriminate];
      clear Hb; lia.
Qed.

(** For a score in [0, 1], [(score * 100).toFixed(1)] is a numeral with one
    decimal place that denotes the tenth nearest to the product. *)
Lemma toFixed_percent (x : number) :
  wf x -> le zero x = true -> le x one = true ->
  exists (n : Z) (v : Q),
    value (mul x hundred) = Some v
    /\ nearest_tenth v n
    /\ denotes_tenths (toFixed Number_toString (mul x hundred) 1) n.
Proof.
  intros Hwf H0 H1.
  destruct (unit_interval_shape x Hwf H0 H1) as [[s ->]|(m & e & -> & Hb & He)].
  - exists 0, 0%Q. cbn [mul SFmul hundred value toFixed].
    split; [reflexivity|]. split; [apply nearest_tenth_zero|].
    apply place_point_tenths. lia.
  - destruct (mul_hundred_small m e Hb He) as [Hz|(m' & e' & Hf & Hlt)].
    + exists 0, 0%Q. rewrite Hz. cbn [value toFixed].
      split; [reflexivity|]. split; [apply nearest_tenth_zero|].
      apply place_point_tenths. lia.
    + exists (nearest_scaled m' e' 1),
             (Qmake (numerator m' e') (Z.to_pos (denominator e'))).
      rewrite Hf. cbn [value toFixed cond_Zopp].
      split; [reflexivity|]. split; [apply nearest_tenth_finite|].
      pose proof (denominator_pos e') as Hd.
      destruct (Z.leb_spec (10 ^ 21 * denominator e') (numerator m' e'))
        as [Hbig|_].
      * exfalso. change (2 ^ 9) with 512 in Hlt.
        change (10 ^ 21) with 1000000000000000000000 in Hbig. lia.
      * cbn [append]. apply place_point_tenths, nearest_scaled_nonneg.
Qed.

(** A draw below 1 has integer part 0. *)
Lemma floor_unit_draw (r : number) :
  wf r -> le zero r = true -> lt r one = true ->
  floor (mul r one) = Some 0.
Proof.
  unfold wf, le, lt, zero, SFleb, SFltb.
  destruct r as [s|s| |s m e]; cbn [valid_binary]; intros Hb H0 H1.
  - reflexivity.
  - destruct s; discriminate.
  - discriminate.
  - destruct s; [discriminate|]. rewrite (mul_one_exact _ _ _ Hb).
    cbn [floor cond_Zopp]. f_equal.
    pose proof (bounded_mantissa_lt _ _ Hb) as Hm.
    unfold one, SFcompare in H1.
    apply Z.div_small.
    split; [clear H0 H1 Hb; pose proof (numerator_pos m e); lia|].
    unfold numerator, denominator.
    destruct (Z.compare_spec e (-52)) as [->|He|He]; [| |discriminate].
    + cbn [Z.leb Z.compare Z.opp]. rewrite Pos.compare_cont_spec in H1.
      change (2 ^ 52) with (Zpos 4503599627370496).
      destruct (Pos.compare_spec m 4503599627370496) as [H|H|H];
        cbn [Pos.switch_Eq] in H1; [discriminate| |discriminate].
      now apply Pos2Z.pos_lt_pos.
    + clear H1 H0 Hb. destruct (Z.leb_spec 0 e); [lia|].
      apply Z.lt_le_trans with (2 ^ 53); [assumption|].
      apply Z.pow_le_mono_r; lia.
Qed.

End UnitIntervalFacts.

(** * The classifier adapter: [analyzeSentiment] *)

Section Classifier.

Variable Number_toString : number -> string.

(** C1 (as amended).  When [analyzeSentiment] takes [primary] as the first
    entry of the pipeline output, the [sentiment] of its result is
    'positive' iff the label contains "positive" case-insensitively and
    score > 0.5; 'negative' iff the label contains "negative" but not
    "positive" case-insensitively and score > 0.5; 'neutral' in every other
    case; and exactly one of the three holds. *)
Theorem C1_sentiment_category
        (st : State) (p : pipeline) (t : string)
        (primary : RawClassification) (rest : list RawClassification) :
  sentimentPipeline st = Some p ->
  ~ all_white t ->
  p t = Ok (Results (primary :: rest)) ->
  exists a,
    analyzeSentiment Number_toString (Some t) st = (Ok a, st, [])
    /\ (sentiment a = "positive" <->
        ci_contains "positive" (raw_label primary)
        /\ gt (raw_score primary) half = true)
    /\ (sentiment a = "negative" <->
        ci_contains "negative" (raw_label primary)
        /\ ~ ci_contains "positive" (raw_label primary)
        /\ gt (raw_score primary) half = true)
    /\ (sentiment a = "neutral" <->
        ~ (gt (raw_score primary) half = true
           /\ (ci_contains "positive" (raw_label primary)
               \/ ci_contains "negative" (raw_label primary))))
    /\ ((sentiment a = "positive"
         /\ sentiment a <> "negative" /\ sentiment a <> "neutral")
        \/ (sentiment a <> "positive"
            /\ sentiment a = "negative" /\ sentiment a <> "neutral")
        \/ (sentiment a <> "positive"
            /\ sentiment a <> "negative" /\ sentiment a = "neutral")).
Proof.
  intros Hp Ht Hr.
  assert (Hb : blank t = false).
  { destruct (blank t) eqn:E; [|reflexivity]. now apply blank_spec in E. }
  eexists. split; [apply (analyzeSentiment_ok _ st p t primary rest Hp Hb Hr)|].
  cbn [sentiment].
  destruct (categorize_spec (raw_label primary) (raw_score primary))
    as (Hpos & Hneg & Hneu).
  repeat (split; [assumption|]).
  unfold categorize.
  destruct (includes _ "POSITIVE" && gt _ half);
    [|destruct (includes _ "NEGATIVE" && gt _ half)];
    [left|right; left|right; right]; repeat split; discriminate.
Qed.

(** C2 (as amended).  The label is upper-cased once; the upper-cased label
    is both what the containment test reads and what the result stores.
    The stored label equals the label the engine produced exactly when that
    label has no lower-case letter.  The labels are those whose upper-case
    form stays within the code units below 256, that is those without a
    micro sign, a sharp s or a y with diaeresis. *)
Theorem C2_label_stored_upper_case
        (st : State) (p : pipeline) (t : string)
        (primary : RawClassification) (rest : list RawClassification) :
  sentimentPipeline st = Some p ->
  ~ all_white t ->
  p t = Ok (Results (primary :: rest)) ->
  upper_within (raw_label primary) = true ->
  exists a,
    analyzeSentiment Number_toString (Some t) st = (Ok a, st, [])
    /\ label a = toUpperCase (raw_label primary)
    /\ sentiment a = categorize (label a) (raw_score primary)
    /\ (label a = raw_label primary <-> no_lower_case (raw_label primary)).
Proof.
  intros Hp Ht Hr Hl.
  assert (Hb : blank t = false).
  { destruct (blank t) eqn:E; [|reflexivity]. now apply blank_spec in E. }
  eexists. split; [apply (analyzeSentiment_ok _ st p t primary rest Hp Hb Hr)|].
  cbn [label sentiment]. repeat split; try reflexivity;
    now apply toUpperCase_fixed.
Qed.

(** C3 (as amended).  With text that is empty after trimming,
    [analyzeSentiment] throws InvalidInput when the pipeline is loaded and
    EngineNotReady when it is not: the model check comes first. *)
Theorem C3_empty_text_error (st : State) (t : string) :
  all_white t ->
  (forall p, sentimentPipeline st = Some p ->
             analyzeSentiment Number_toString (Some t) st
             = (Throw InvalidInput, st, []))
  /\ (sentimentPipeline st = None ->
      analyzeSentiment Number_toString (Some t) st
      = (Throw EngineNotReady, st, [])).
Proof.
  intro Ht. apply blank_spec in Ht.
  unfold analyzeSentiment, bind, gets, throw. split.
  - intros p ->. now rewrite Ht.
  - intros ->. reflexivity.
Qed.

(** C4.  A label that contains both "positive" and "negative"
    case-insensitively, with score > 0.5, is categorized 'positive': the
    positive branch is tested first. *)
Theorem C4_positive_takes_precedence
        (st : State) (p : pipeline) (t : string)
        (primary : RawClassification) (rest : list RawClassification) :
  sentimentPipeline st = Some p ->
  ~ all_white t ->
  p t = Ok (Results (primary :: rest)) ->
  ci_contains "positive" (raw_label primary) ->
  ci_contains "negative" (raw_label primary) ->
  gt (raw_score primary) half = true ->
  exists a,
    analyzeSentiment Number_toString (Some t) st = (Ok a, st, [])
    /\ sentiment a = "positive".
Proof.
  intros Hp Ht Hr Hpos _ Hs.
  assert (Hb : blank t = false).
  { destruct (blank t) eqn:E; [|reflexivity]. now apply blank_spec in E. }
  eexists. split; [apply (analyzeSentiment_ok _ st p t primary rest Hp Hb Hr)|].
  cbn [sentiment]. now apply categorize_spec.
Qed.

(** C5.  For a score in [0, 1], [confidence] is a decimal numeral with
    exactly one digit after the point, and the number it denotes is the
    multiple of one tenth nearest to the double [score * 100] (the larger
    one at a tie); the double nearest to 0.952 gives "95.2". *)
Theorem C5_confidence_one_decimal
        (st : State) (p : pipeline) (t : string)
        (primary : RawClassification) (rest : list RawClassification) :
  sentimentPipeline st = Some p ->
  ~ all_white t ->
  p t = Ok (Results (primary :: rest)) ->
  wf (raw_score primary) ->
  le zero (raw_score primary) = true ->
  le (raw_score primary) one = true ->
  exists a (n : Z) (v : Q),
    analyzeSentiment Number_toString (Some t) st = (Ok a, st, [])
    /\ value (mul (raw_score primary) hundred) = Some v
    /\ nearest_tenth v n
    /\ denotes_tenths (confidence a) n
    /\ (raw_score primary = score_0_952 -> confidence a = "95.2").
Proof.
  intros Hp Ht Hr Hwf H0 H1.
  assert (Hb : blank t = false).
  { destruct (blank t) eqn:E; [|reflexivity]. now apply blank_spec in E. }
  destruct (toFixed_percent Number_toString _ Hwf H0 H1) as (n & v & Hv & Hn & Hd).
  eexists; exists n, v.
  split; [apply (analyzeSentiment_ok _ st p t primary rest Hp Hb Hr)|].
  cbn [confidence]. repeat (split; [assumption|]).
  intros ->. reflexivity.
Qed.

(** C8.  When the pipeline call resolves to something that is not an array,
    or to an empty array, [analyzeSentiment] throws InvalidEngineOutput and
    returns no result. *)
Theorem C8_invalid_engine_output (st : State) (p : pipeline) (t : string) :
  sentimentPipeline st = Some p ->
  ~ all_white t ->
  p t = Ok NotAnArray \/ p t = Ok (Results []) ->
  analyzeSentiment Number_toString (Some t) st
  = (Throw InvalidEngineOutput, st, []).
Proof.
  intros Hp Ht Hr.
  assert (Hb : blank t = false).
  { destruct (blank t) eqn:E; [|reflexivity]. now apply blank_spec in E. }
  unfold analyzeSentiment, bind, gets, lift, throw. rewrite Hp, Hb.
  destruct Hr as [-> | ->]; reflexivity.
Qed.

End Classifier.

(** * Dataset sampling: [getRandomReview] *)

Section Sampling.

(** C9.  Over a one-element dataset [getRandomReview] returns that element
    for every draw of [Math.random()], that is for every double in
    [0, 1); over an empty dataset it throws EmptyDataset. *)
Theorem C9_pick_random (st : State) (r : number) :
  (forall x, reviews st = [x] ->
             wf r -> le zero r = true -> lt r one = true ->
             getRandomReview r st = (Ok (Some x), st, []))
  /\ (reviews st = [] ->
      getRandomReview r st = (Throw EmptyDataset, st, [])).
Proof.
  unfold getRandomReview, bind, gets, throw, ret. split.
  - intros x -> Hwf H0 H1. cbn [List.length Nat.eqb].
    change (of_nat 1) with one.
    now rewrite (floor_unit_draw r Hwf H0 H1).
  - intros ->. reflexivity.
Qed.

End Sampling.

(** * The log record builder: [logToGoogleSheets] *)

Section Logging.

Variable Number_toString : number -> string.
Variable JSON_stringify : json -> string.
Variable cfg : Config.

(** C6.  With an analysis in the session and the endpoint configured,
    [logToGoogleSheets] posts a payload whose [sentiment] field is the
    session's label, a space, an opening parenthesis, the confidence, a
    percent sign and a closing parenthesis; label "POSITIVE" with confidence
    "95.2" gives exactly "POSITIVE (95.2%)". *)
Theorem C6_log_sentiment_field
        (st : State) (ca : CurrentAnalysis) (env : ClientEnv)
        (t1 t2 : string) (net : fetch_result) :
  currentAnalysis st = Some ca ->
  not_configured cfg = false ->
  exists (payload : Payload) (after : list event),
    snd (logToGoogleSheets Number_toString JSON_stringify cfg env t1 t2 net st)
    = FetchPost (GOOGLE_SCRIPT_URL cfg)
                (JSON_stringify (payload_json payload)) :: after
    /\ payload_sentiment payload
       = label (analysis ca) ++ " " ++ "(" ++ confidence (analysis ca)
         ++ "%" ++ ")"
    /\ (label (analysis ca) = "POSITIVE" ->
        confidence (analysis ca) = "95.2" ->
        payload_sentiment payload = "POSITIVE (95.2%)").
Proof.
  intros Hca Hcfg.
  unfold logToGoogleSheets, bind, gets, try_catch, collectMetadata, ret, emit,
    throw, showError.
  rewrite Hca, Hcfg. cbn [app].
  eexists. destruct net; eexists; cbn [snd app].
  - split; [reflexivity|]. cbn [payload_sentiment build_payload].
    split; [reflexivity|]. intros -> ->. reflexivity.
  - split; [reflexivity|]. cbn [payload_sentiment build_payload].
    split; [reflexivity|]. intros -> ->. reflexivity.
Qed.

(** C7.  With no analysis in the session, [logToGoogleSheets] shows the
    NoAnalysisAvailable error and does nothing else: no payload is posted
    or logged. *)
Theorem C7_log_without_analysis
        (st : State) (env : ClientEnv) (t1 t2 : string) (net : fetch_result) :
  currentAnalysis st = None ->
  logToGoogleSheets Number_toString JSON_stringify cfg env t1 t2 net st
  = (Ok tt, st, [ShowError (message NoAnalysisAvailable)])
  /\ message NoAnalysisAvailable = "No analysis to log".
Proof.
  intro H. unfold logToGoogleSheets, bind, gets, showError, emit.
  now rewrite H.
Qed.

(** C10.  [logToGoogleSheets] leaves the stored analysis, and every other
    global, as it found them, whether the request resolves or rejects or is
    never sent. *)
Theorem C10_log_leaves_session
        (st : State) (env : ClientEnv) (t1 t2 : string) (net : fetch_result) :
  snd (fst (logToGoogleSheets Number_toString JSON_stringify cfg
                              env t1 t2 net st)) = st
  /\ currentAnalysis
       (snd (fst (logToGoogleSheets Number_toString JSON_stringify cfg
                                    env t1 t2 net st)))
     = currentAnalysis st.
Proof.
  assert (H : snd (fst (logToGoogleSheets Number_toString JSON_stringify cfg
                                          env t1 t2 net st)) = st).
  { unfold logToGoogleSheets, bind, gets, try_catch, collectMetadata, ret,
      emit, throw, showError.
    destruct (currentAnalysis st) as [ca|]; [|reflexivity].
    destruct (not_configured cfg); [reflexivity|].
    destruct net; reflexivity. }
  split; [exact H|now rewrite H].
Qed.

End Logging.

(** * Closed instances *)

Lemma not_all_white_review : ~ all_white "Great product!".
Proof. cbn. intros [H _]. discriminate. Qed.

Lemma C1_witness :
  let st := loaded ["Great product!"] (constant_pipeline "POSITIVE" score_0_98) in
  ~ all_white "Great product!"
  /\ exists a,
       analyzeSentiment toString_integral (Some "Great product!") st
       = (Ok a, st, [])
       /\ sentiment a = "positive".
Proof.
  intro st. split; [exact not_all_white_review|].
  destruct (C1_sentiment_category toString_integral st
              (constant_pipeline "POSITIVE" score_0_98) "Great product!"
              {| raw_label := "POSITIVE"; raw_score := score_0_98 |} []
              eq_refl not_all_white_review eq_refl)
    as (a & Hrun & Hpos & _).
  exists a. split; [exact Hrun|]. apply Hpos. split; [|reflexivity].
  apply (includes_upper_ci "positive" _ eq_refl). reflexivity.
Defined.

(** C1 as stated fails: a label that contains both words, with score 0.9,
    contains "negative" and has score > 0.5, yet is not categorized
    'negative'. *)
Lemma C1_counterexample :
  let st := loaded ["Mixed"] (constant_pipeline "POSITIVE-NEGATIVE" score_0_9) in
  exists a,
    analyzeSentiment toString_integral (Some "Mixed") st = (Ok a, st, [])
    /\ ~ (sentiment a = "negative" <->
          ci_contains "negative" "POSITIVE-NEGATIVE"
          /\ gt score_0_9 half = true).
Proof.
  intro st. eexists. split; [reflexivity|]. cbn [sentiment]. intros [_ H].
  assert (Hn : categorize (toUpperCase "POSITIVE-NEGATIVE") score_0_9 = "negative").
  { apply H. split; [|reflexivity].
    apply (includes_upper_ci "negative" _ eq_refl). reflexivity. }
  discriminate Hn.
Qed.

Lemma C2_witness :
  let st := loaded ["Great product!"] (constant_pipeline "Positive" score_0_98) in
  ~ all_white "Great product!"
  /\ upper_within "Positive" = true
  /\ exists a,
       analyzeSentiment toString_integral (Some "Great product!") st
       = (Ok a, st, [])
       /\ label a = "POSITIVE"
       /\ label a <> "Positive".
Proof.
  intro st. split; [exact not_all_white_review|]. split; [reflexivity|].
  destruct (C2_label_stored_upper_case toString_integral st
              (constant_pipeline "Positive" score_0_98) "Great product!"
              {| raw_label := "Positive"; raw_score := score_0_98 |} []
              eq_refl not_all_white_review eq_refl eq_refl)
    as (a & Hrun & Hl & _ & Hsame).
  exists a. split; [exact Hrun|]. split; [exact Hl|].
  intro H. apply Hsame in H. cbn in H. destruct H as [_ [H _]]. discriminate H.
Defined.

(** C2 as stated fails: the label "positive" is stored as "POSITIVE". *)
Lemma C2_counterexample :
  let st := loaded ["Great product!"] (constant_pipeline "positive" score_0_98) in
  exists a,
    analyzeSentiment toString_integral (Some "Great product!") st
    = (Ok a, st, [])
    /\ label a <> "positive".
Proof.
  intro st. eexists. split; [reflexivity|]. cbn [label]. discriminate.
Qed.

Lemma C3_witness :
  all_white (" " ++ nbsp)
  /\ analyzeSentiment toString_integral (Some (" " ++ nbsp))
       (loaded [] (constant_pipeline "POSITIVE" score_0_98))
     = (Throw InvalidInput,
        loaded [] (constant_pipeline "POSITIVE" score_0_98), []).
Proof.
  assert (Hw : all_white (" " ++ nbsp)) by (cbn; auto).
  split; [exact Hw|].
  exact (proj1 (C3_empty_text_error toString_integral
                  (loaded [] (constant_pipeline "POSITIVE" score_0_98))
                  (" " ++ nbsp) Hw) _ eq_refl).
Defined.

(** C3 as stated fails: before the model has loaded, empty text is
    answered with EngineNotReady, not InvalidInput. *)
Lemma C3_counterexample :
  analyzeSentiment toString_integral (Some "") (unloaded ["Great product!"])
  = (Throw EngineNotReady, unloaded ["Great product!"], [])
  /\ @Throw Analysis EngineNotReady <> Throw InvalidInput.
Proof. split; [reflexivity|discriminate]. Qed.

Lemma C4_witness :
  let st := loaded ["Mixed"] (constant_pipeline "positive/negative" score_0_9) in
  ~ all_white "Mixed"
  /\ ci_contains "positive" "positive/negative"
  /\ ci_contains "negative" "positive/negative"
  /\ gt score_0_9 half = true
  /\ exists a,
       analyzeSentiment toString_integral (Some "Mixed") st = (Ok a, st, [])
       /\ sentiment a = "positive".
Proof.
  intro st.
  assert (Hw : ~ all_white "Mixed") by (cbn; intros [H _]; discriminate).
  assert (Hp : ci_contains "positive" "positive/negative")
    by (apply (includes_upper_ci "positive" _ eq_refl); reflexivity).
  assert (Hn : ci_contains "negative" "positive/negative")
    by (apply (includes_upper_ci "negative" _ eq_refl); reflexivity).
  repeat (split; [assumption || reflexivity|]).
  exact (C4_positive_takes_precedence toString_integral st
           (constant_pipeline "positive/negative" score_0_9) "Mixed"
           {| raw_label := "positive/negative"; raw_score := score_0_9 |} []
           eq_refl Hw eq_refl Hp Hn eq_refl).
Defined.

Lemma C5_witness :
  let st := loaded ["Great product!"] (constant_pipeline "POSITIVE" score_0_98) in
  ~ all_white "Great product!"
  /\ wf score_0_98 /\ le zero score_0_98 = true /\ le score_0_98 one = true
  /\ exists a (n : Z),
       analyzeSentiment toString_integral (Some "Great product!") st
       = (Ok a, st, [])
       /\ denotes_tenths (confidence a) n.
Proof.
  intro st. split; [exact not_all_white_review|].
  repeat (split; [reflexivity|]).
  destruct (C5_confidence_one_decimal toString_integral st
              (constant_pipeline "POSITIVE" score_0_98) "Great product!"
              {| raw_label := "POSITIVE"; raw_score := score_0_98 |} []
              eq_refl not_all_white_review eq_refl eq_refl eq_refl eq_refl)
    as (a & n & v & Hrun & _ & _ & Hd & _).
  exists a, n. split; assumption.
Defined.

Lemma C8_witness :
  let st := loaded ["Great product!"] (fun _ => Ok (Results [])) in
  ~ all_white "Great product!"
  /\ analyzeSentiment toString_integral (Some "Great product!") st
     = (Throw InvalidEngineOutput, st, []).
Proof.
  intro st. split; [exact not_all_white_review|].
  exact (C8_invalid_engine_output toString_integral st
           (fun _ => Ok (Results [])) "Great product!"
           eq_refl not_all_white_review (or_intror eq_refl)).
Defined.

Lemma C9_witness :
  let st := loaded ["Great product!"] (constant_pipeline "POSITIVE" score_0_98) in
  wf score_0_952 /\ le zero score_0_952 = true /\ lt score_0_952 one = true
  /\ getRandomReview score_0_952 st = (Ok (Some "Great product!"), st, []).
Proof.
  intro st. repeat (split; [reflexivity|]).
  exact (proj1 (C9_pick_random st score_0_952) "Great product!"
               eq_refl eq_refl eq_refl eq_refl).
Defined.

Lemma C6_witness :
  let st := set_currentAnalysis logged_analysis
              (loaded ["Great product!"] (constant_pipeline "POSITIVE" score_0_952)) in
  not_configured deployed_config = false
  /\ exists payload after,
       snd (logToGoogleSheets toString_integral stringify_plain deployed_config
              sample_env "2026-02-06T10:05:00.000Z" "2026-02-06T10:05:00.001Z"
              FetchResolved st)
       = FetchPost (GOOGLE_SCRIPT_URL deployed_config)
                   (stringify_plain (payload_json payload)) :: after
       /\ payload_sentiment payload = "POSITIVE (95.2%)".
Proof.
  intro st. split; [reflexivity|].
  destruct (C6_log_sentiment_field toString_integral stringify_plain
              deployed_config st logged_analysis sample_env
              "2026-02-06T10:05:00.000Z" "2026-02-06T10:05:00.001Z"
              FetchResolved eq_refl eq_refl)
    as (payload & after & Hev & _ & Hex).
  exists payload, after. split; [exact Hev|]. apply Hex; reflexivity.
Defined.

Lemma C7_witness :
  let st := loaded ["Great product!"] (constant_pipeline "POSITIVE" score_0_952) in
  currentAnalysis st = None
  /\ logToGoogleSheets toString_integral stringify_plain deployed_config
       sample_env "2026-02-06T10:05:00.000Z" "2026-02-06T10:05:00.001Z"
       FetchResolved st
     = (Ok tt, st, [ShowError "No analysis to log"]).
Proof.
  intro st. split; [reflexivity|].
  exact (proj1 (C7_log_without_analysis toString_integral stringify_plain
                  deployed_config st sample_env
                  "2026-02-06T10:05:00.000Z" "2026-02-06T10:05:00.001Z"
                  FetchResolved eq_refl)).
Defined.

(** * Rounding of products *)

Section RoundingFacts.

Local Open Scope Z_scope.

Lemma iter_pos_nat {A : Type} (f : A -> A) (p : positive) (x : A) :
  iter_pos f p x = Nat.iter (Pos.to_nat p) f x.
Proof.
  revert x. induction p as [p IH|p IH|]; intro x; cbn [iter_pos].
  - rewrite !IH, Pos2Nat.inj_xI, <- Nat.iter_add, <- Nat.iter_succ_r.
    f_equal. lia.
  - rewrite !IH, Pos2Nat.inj_xO, <- Nat.iter_add. f_equal. lia.
  - reflexivity.
Qed.

Lemma shr_m_nat_iter (k : nat) (mrs : shr_record) :
  0 <= shr_m mrs ->
  shr_m (Nat.iter k shr_1 mrs) = shr_m mrs / 2 ^ Z.of_nat k.
Proof.
  intro H. induction k as [|k IH].
  - cbn. now rewrite Z.div_1_r.
  - rewrite Nat.iter_succ, shr_1_m, IH.
    + rewrite Z.div_div by (try apply Z.pow_pos_nonneg; lia).
      rewrite Nat2Z.inj_succ, Z.pow_succ_r by lia. f_equal. lia.
    + rewrite IH. apply Z.div_pos; [|apply Z.pow_pos_nonneg]; lia.
Qed.

(** The round bit after a shift is the last bit shifted out. *)
Lemma shr_r_shr_1 (mrs : shr_record) :
  0 <= shr_m mrs -> shr_r (shr_1 mrs) = Z.odd (shr_m mrs).
Proof.
  destruct mrs as [[|[p|p|]|p] r s]; cbn [shr_m shr_1 shr_r]; intro H;
    try reflexivity; lia.
Qed.

Lemma round_nearest_even_no_round_bit (mrs : shr_record) :
  shr_r mrs = false ->
  round_nearest_even (shr_m mrs) (loc_of_shr_record mrs) = shr_m mrs.
Proof. destruct mrs as [m r s]. cbn. intros ->. now destruct s. Qed.

(** Rounding to nearest after a right shift by [k] adds at most half a
    unit in the last place: [2 * rounded * 2^k <= 2 * M + 2^k]. *)
Lemma round_shift_bound (M : Z) (p : positive) :
  0 <= M ->
  let mrs := iter_pos shr_1 p (shr_record_of_loc M loc_Exact) in
  2 * round_nearest_even (shr_m mrs) (loc_of_shr_record mrs) * 2 ^ Zpos p
  <= 2 * M + 2 ^ Zpos p.
Proof.
  intros HM mrs.
  assert (Hp : 0 < 2 ^ Zpos p) by (apply Z.pow_pos_nonneg; lia).
  assert (Hm1 : shr_m mrs = M / 2 ^ Zpos p)
    by (unfold mrs; now rewrite shr_m_iter).
  pose proof (Z.mul_div_le M (2 ^ Zpos p) Hp) as Hfloor.
  destruct (shr_r mrs) eqn:Hr.
  - pose proof (round_nearest_even_bounds (shr_m mrs) (loc_of_shr_record mrs))
      as [_ Hup].
    unfold mrs in Hr. rewrite iter_pos_nat in Hr.
    destruct (Pos.to_nat p) as [|k] eqn:Ek; [lia|].
    rewrite Nat.iter_succ, shr_r_shr_1, shr_m_nat_iter in Hr;
      [|cbn; lia|rewrite shr_m_nat_iter by (cbn; lia);
                 apply Z.div_pos; [cbn; lia|apply Z.pow_pos_nonneg; lia]].
    cbn [shr_record_of_loc shr_m] in Hr.
    assert (Hk : Zpos p = Z.of_nat k + 1) by lia.
    assert (Hq : 0 < 2 ^ Z.of_nat k) by (apply Z.pow_pos_nonneg; lia).
    assert (Hpk : 2 ^ Zpos p = 2 ^ Z.of_nat k * 2)
      by (rewrite Hk, Z.pow_add_r by lia; reflexivity).
    set (q := M / 2 ^ Z.of_nat k) in *.
    assert (Hq1 : shr_m mrs = q / 2)
      by (rewrite Hm1, Hpk; unfold q; now rewrite Z.div_div by lia).
    pose proof (Z.mul_div_le M (2 ^ Z.of_nat k) Hq) as HqM. fold q in HqM.
    rewrite Z.odd_spec in Hr. destruct Hr as [h Hh].
    assert (Hh2 : q / 2 = h) by (rewrite Hh; symmetry; apply Z.div_unique with 1; lia).
    rewrite Hq1, Hh2 in *. rewrite Hpk. nia.
  - rewrite round_nearest_even_no_round_bit by assumption. lia.
Qed.

Lemma shr_round_bound (M E n e1 : Z) (mrs1 : shr_record) :
  0 <= M ->
  shr (shr_record_of_loc M loc_Exact) E n = (mrs1, e1) ->
  e1 = E + Z.max 0 n
  /\ 2 * round_nearest_even (shr_m mrs1) (loc_of_shr_record mrs1)
       * 2 ^ Z.max 0 n
     <= 2 * M + 2 ^ Z.max 0 n.
Proof.
  intros HM H. unfold shr in H. destruct n as [|p|p]; injection H as <- <-.
  - cbn. lia.
  - replace (Z.max 0 (Zpos p)) with (Zpos p) by lia.
    split; [reflexivity|]. now apply round_shift_bound.
  - replace (Z.max 0 (Zneg p)) with 0 by lia. cbn. lia.
Qed.

(** The product of a double below 1 with a double [y] in [1, 2^53) stays
    strictly below [y] after rounding: multiplying by a draw from [0, 1)
    never reaches the multiplicand. *)
Lemma mul_below (m : positive) (e : Z) (my : positive) (ey : Z) :
  bounded prec emax m e = true -> e <= -53 ->
  Zpos (digits2_pos my) = 53 -> -52 <= ey <= 0 ->
  mul (S754_finite false m e) (S754_finite false my ey) = S754_zero false
  \/ exists m3 e3,
       mul (S754_finite false m e) (S754_finite false my ey)
       = S754_finite false m3 e3
       /\ numerator m3 e3 * denominator ey < numerator my ey * denominator e3.
Proof.
  intros Hb He Hdy Hey.
  pose proof (bounded_digits _ _ Hb) as [_ [Hemin _]].
  pose proof (bounded_mantissa_lt _ _ Hb) as Hm.
  pose proof (digits2_pos_bounds my) as [Hylo Hyhi]. rewrite Hdy in Hylo, Hyhi.
  unfold mul, SFmul. cbn [xorb].
  assert (HMd : 2 ^ (Zdigits2 (Zpos (m * my)) - 1) <= Zpos (m * my))
    by (cbn [Zdigits2]; apply digits2_pos_bounds).
  assert (Hdpos : 1 <= Zdigits2 (Zpos (m * my))) by (cbn [Zdigits2]; lia).
  unfold binary_round_aux, shr_fexp.
  remember (Zpos (m * my)) as M eqn:HM.
  assert (HM' : M = Zpos m * Zpos my) by (subst M; apply Pos2Z.inj_mul).
  clear HM. remember (Zdigits2 M) as d eqn:Hd. clear Hd.
  assert (HMlt : M < 2 ^ 53 * Zpos my) by (rewrite HM'; apply Z.mul_lt_mono_pos_r; lia).
  assert (Hd106 : d <= 106).
  { destruct (Z.le_gt_cases d 106) as [|Hgt]; [assumption|exfalso].
    assert (2 ^ 106 <= 2 ^ (d - 1)) by (apply Z.pow_le_mono_r; lia).
    change (2 ^ 106) with (2 ^ 53 * 2 ^ 53) in H.
    assert (2 ^ 53 * Zpos my < 2 ^ 53 * 2 ^ 53) by (apply Z.mul_lt_mono_pos_l; lia).
    lia. }
  set (E := e + ey) in *.
  set (n1 := fexp prec emax (d + E) - E).
  destruct (shr (shr_record_of_loc M loc_Exact) E n1) as [mrs1 e1] eqn:S1.
  pose proof (shr_spec _ _ _ _ _ S1 ltac:(cbn; lia)) as [Hm1 _].
  apply shr_round_bound in S1 as [He1 Hround]; [|lia].
  cbn [shr_record_of_loc shr_m] in Hm1.
  set (k := Z.max 0 n1) in *.
  assert (Hk : 0 <= k) by lia.
  assert (Hpk : 0 < 2 ^ k) by (apply Z.pow_pos_nonneg; lia).
  assert (Hm1lo : 0 <= shr_m mrs1) by (rewrite Hm1; apply Z.div_pos; lia).
  pose proof (round_nearest_even_bounds (shr_m mrs1) (loc_of_shr_record mrs1))
    as Hm2.
  set (m2 := round_nearest_even (shr_m mrs1) (loc_of_shr_record mrs1)) in *.
  (* the shift is small against the multiplicand *)
  assert (Hkb : 2 ^ k < 2 * Zpos my).
  { unfold k, n1, fexp, emin, prec, emax.
    destruct (Z.max_spec 0 (Z.max (d + E - 53) (3 - 1024 - 53) - E))
      as [[_ ->]|[_ ->]]; [|cbn; lia].
    destruct (Z.max_spec (d + E - 53) (3 - 1024 - 53)) as [[_ ->]|[_ ->]].
    - apply Z.le_lt_trans with (2 ^ 52); [|lia].
      apply Z.pow_le_mono_r; unfold E; lia.
    - replace (d + E - 53 - E) with (d - 53) by lia.
      destruct (Z.le_gt_cases d 53) as [Hs|Hs].
      + apply Z.le_lt_trans with (2 ^ 0); [|cbn; lia].
        destruct (Z.eq_dec d 53) as [->|]; [cbn; lia|].
        rewrite Z.pow_neg_r by lia. cbn. lia.
      + assert (Hsplit : 2 ^ (d - 1) = 2 ^ 52 * 2 ^ (d - 53))
          by (rewrite <- Z.pow_add_r by lia; f_equal; lia).
        assert (0 < 2 ^ (d - 53)) by (apply Z.pow_pos_nonneg; lia).
        change (2 ^ 53) with (2 ^ 52 * 2) in HMlt.
        change (2 ^ 52) with 4503599627370496 in *. nia. }
  assert (Hm2hi : m2 <= 2 ^ 106).
  { assert (shr_m mrs1 <= M).
    { rewrite Hm1. apply Z.div_le_upper_bound; [lia|].
      rewrite <- (Z.mul_1_l M) at 1. apply Z.mul_le_mono_nonneg_r; lia. }
    assert (M < 2 ^ 106); [|lia].
    change (2 ^ 106) with (2 ^ 53 * 2 ^ 53).
    apply Z.lt_trans with (2 ^ 53 * Zpos my); [assumption|].
    apply Z.mul_lt_mono_pos_l; lia. }
  assert (Hd2 : Zdigits2 m2 <= 107) by (apply (Zdigits2_le m2 106); lia).
  set (n2 := fexp prec emax (Zdigits2 m2 + e1) - e1).
  assert (He1hi : e1 <= 0)
    by (rewrite He1; unfold k, n1, fexp, emin, prec, emax, E; lia).
  assert (Hn2 : e1 + Z.max 0 n2 <= 54)
    by (unfold n2, fexp, emin, prec, emax; lia).
  destruct (shr (shr_record_of_loc m2 loc_Exact) e1 n2) as [mrs2 e2] eqn:S2.
  apply shr_spec in S2 as [Hm3 He2]; [|cbn; lia].
  cbn [shr_record_of_loc shr_m] in Hm3.
  set (k2 := Z.max 0 n2) in *.
  assert (Hk2 : 0 <= k2) by lia.
  assert (Hp2 : 0 < 2 ^ k2) by (apply Z.pow_pos_nonneg; lia).
  assert (Hm3hi : shr_m mrs2 * 2 ^ k2 <= m2)
    by (rewrite Hm3, Z.mul_comm; apply Z.mul_div_le; lia).
  assert (Hm3lo : 0 <= shr_m mrs2) by (rewrite Hm3; apply Z.div_pos; lia).
  destruct (shr_m mrs2) as [|m3|m3] eqn:E3; [now left| |lia].
  right. exists m3, e2.
  replace (e2 <=? emax - prec) with true
    by (symmetry; apply Z.leb_le; unfold emax, prec; lia).
  split; [reflexivity|].
  (* the value bound, before scaling *)
  assert (HDe : 0 < 2 ^ (- e)) by (apply Z.pow_pos_nonneg; lia).
  assert (Hae : Zpos m + 1 <= 2 ^ (- e)).
  { assert (2 ^ 53 <= 2 ^ (- e)) by (apply Z.pow_le_mono_r; lia). lia. }
  assert (Hcore : Zpos m3 * (2 ^ k * 2 ^ k2) < Zpos my * 2 ^ (- e)).
  { assert (H1 : 2 * (Zpos m3 * 2 ^ k2) * 2 ^ k <= 2 * m2 * 2 ^ k)
      by (apply Z.mul_le_mono_nonneg_r; lia).
    assert (H2 : 2 * Zpos my * (Zpos m + 1) <= 2 * Zpos my * 2 ^ (- e))
      by (apply Z.mul_le_mono_nonneg_l; lia).
    rewrite HM' in Hround. lia. }
  (* relate the exponents *)
  assert (Hj : e2 = e + ey + (k + k2)) by (unfold E in He1; lia).
  unfold numerator, denominator.
  replace (0 <=? ey) with (ey =? 0) by
    (destruct (Z.eqb_spec ey 0), (Z.leb_spec 0 ey); lia || reflexivity).
  assert (Hyval : (if ey =? 0 then Zpos my * 2 ^ ey else Zpos my) = Zpos my)
    by (destruct (Z.eqb_spec ey 0) as [->|]; [cbn; lia|reflexivity]).
  assert (Hyden : (if ey =? 0 then 1 else 2 ^ (- ey)) = 2 ^ (- ey))
    by (destruct (Z.eqb_spec ey 0) as [->|]; reflexivity).
  rewrite Hyval, Hyden.
  assert (Hpey : 0 < 2 ^ (- ey)) by (apply Z.pow_pos_nonneg; lia).
  destruct (Z.leb_spec 0 e2) as [Hpos|Hneg].
  - rewrite Z.mul_1_r.
    assert (Hs : 2 ^ k * 2 ^ k2 = 2 ^ e2 * 2 ^ (- ey) * 2 ^ (- e))
      by (rewrite <- !Z.pow_add_r by lia; f_equal; lia).
    rewrite Hs, !Z.mul_assoc in Hcore.
    apply Z.mul_lt_mono_pos_r in Hcore; [lia|assumption].
  - assert (Hs : 2 ^ (- ey) * 2 ^ (- e) = 2 ^ k * 2 ^ k2 * 2 ^ (- e2))
      by (rewrite <- !Z.pow_add_r by lia; f_equal; lia).
    assert (0 < 2 ^ (- e2)) by (apply Z.pow_pos_nonneg; lia).
    apply Z.mul_lt_mono_pos_r with (2 ^ (- e)); [assumption|].
    rewrite <- Z.mul_assoc, Hs.
    replace (Zpos m3 * (2 ^ k * 2 ^ k2 * 2 ^ (- e2)))
      with (Zpos m3 * (2 ^ k * 2 ^ k2) * 2 ^ (- e2)) by ring.
    replace (Zpos my * 2 ^ (- e2) * 2 ^ (- e))
      with (Zpos my * 2 ^ (- e) * 2 ^ (- e2)) by ring.
    apply Z.mul_lt_mono_pos_r; assumption.
Qed.

Lemma iter_xO_value (p q : positive) :
  Zpos (Pos.iter xO p q) = Zpos p * 2 ^ Zpos q
  /\ Zpos (digits2_pos (Pos.iter xO p q)) = Zpos (digits2_pos p) + Zpos q.
Proof.
  induction q as [|q [IH1 IH2]] using Pos.peano_ind.
  - cbn [Pos.iter digits2_pos]. rewrite Pos2Z.inj_succ. split; lia.
  - rewrite Pos.iter_succ. cbn [digits2_pos].
    rewrite !Pos2Z.inj_succ, Pos2Z.inj_xO, IH1, IH2, Z.pow_succ_r by lia.
    split; lia.
Qed.

(** A length between 1 and 2^53 converts to a Number exactly, as a normal
    double with a 53-bit mantissa. *)
Lemma of_nat_shape (n : nat) :
  (1 <= n)%nat -> Z.of_nat n < 2 ^ 53 ->
  exists my ey,
    of_nat n = S754_finite false my ey
    /\ Zpos (digits2_pos my) = 53
    /\ -52 <= ey <= 0
    /\ numerator my ey = Z.of_nat n * denominator ey.
Proof.
  intros Hn Hlt. unfold of_nat, binary_normalize.
  destruct (Z.of_nat n) as [|p|p] eqn:Ep; [lia| |lia].
  pose proof (digits2_pos_bounds p) as [Hlo Hhi].
  assert (Hd : 1 <= Zpos (digits2_pos p) <= 53).
  { split; [lia|]. destruct (Z.le_gt_cases (Zpos (digits2_pos p)) 53); [assumption|].
    assert (2 ^ 53 <= 2 ^ (Zpos (digits2_pos p) - 1))
      by (apply Z.pow_le_mono_r; lia). lia. }
  unfold binary_round, shl_align.
  assert (Hf : fexp prec emax (Zpos (digits2_pos p) + 0)
               = Zpos (digits2_pos p) - 53)
    by (unfold fexp, emin, prec, emax; lia).
  rewrite Hf.
  assert (Hnorm : forall mz ez,
             Zpos (digits2_pos mz) = 53 -> -52 <= ez <= 0 ->
             binary_round_aux prec emax false (Zpos mz) ez loc_Exact
             = S754_finite false mz ez).
  { intros mz ez Hmz Hez. unfold binary_round_aux, shr_fexp.
    cbn [Zdigits2]. rewrite Hmz.
    replace (fexp prec emax (53 + ez) - ez) with 0
      by (unfold fexp, emin, prec, emax; lia).
    cbn [shr shr_record_of_loc shr_m loc_of_shr_record round_nearest_even
         Zdigits2].
    rewrite Hmz.
    replace (fexp prec emax (53 + ez) - ez) with 0
      by (unfold fexp, emin, prec, emax; lia).
    cbn [shr shr_m].
    replace (ez <=? emax - prec) with true
      by (symmetry; apply Z.leb_le; unfold emax, prec; lia).
    reflexivity. }
  destruct (Zpos (digits2_pos p) - 53 - 0) as [|q|q] eqn:Eq.
  - exists p, 0. rewrite Hnorm by lia.
    split; [reflexivity|]. split; [lia|]. split; [lia|].
    unfold numerator, denominator. cbn. lia.
  - lia.
  - destruct (iter_xO_value p q) as [Hv Hdig].
    exists (Pos.iter xO p q), (Zpos (digits2_pos p) - 53).
    rewrite Hnorm by lia.
    split; [reflexivity|]. split; [lia|]. split; [lia|].
    unfold numerator, denominator.
    destruct (Z.leb_spec 0 (Zpos (digits2_pos p) - 53)); [lia|].
    rewrite Hv. f_equal. f_equal. lia.
Qed.

(** [Math.floor(r * n)] for a draw [r] in [0, 1) and a length [n] between 1
    and 2^53 is an index into an array of that length. *)
Lemma floor_draw_in_range (r : number) (n : nat) :
  wf r -> le zero r = true -> lt r one = true ->
  (1 <= n)%nat -> Z.of_nat n < 2 ^ 53 ->
  exists i, floor (mul r (of_nat n)) = Some i /\ 0 <= i < Z.of_nat n.
Proof.
  intros Hwf H0 H1 Hn Hlt.
  destruct (of_nat_shape n Hn Hlt) as (my & ey & -> & Hdy & Hey & Hval).
  unfold wf, le, lt, zero, SFleb, SFltb in *.
  destruct r as [s|s| |s m e]; cbn [valid_binary] in Hwf.
  - exists 0. split; [reflexivity|lia].
  - destruct s; discriminate.
  - discriminate.
  - destruct s; [discriminate|].
    assert (He : e <= -53).
    { pose proof (bounded_digits _ _ Hwf) as [Hd [Hlo _]].
      pose proof (digits2_pos_bounds m) as [Hmlo _].
      unfold one, SFcompare in H1.
      destruct (Z.compare_spec e (-52)) as [->|He|He]; [|lia|discriminate].
      exfalso. rewrite Pos.compare_cont_spec in H1.
      destruct (Pos.compare_spec m 4503599627370496) as [H|H|H];
        cbn [Pos.switch_Eq] in H1; try discriminate.
      apply Pos2Z.pos_lt_pos in H. clear H1 H0.
      unfold bounded, canonical_mantissa, fexp, emin, prec, emax in Hwf.
      apply andb_true_iff in Hwf as [Hc _]. apply Z.eqb_eq in Hc.
      assert (Hd53 : Zpos (digits2_pos m) = 53) by lia.
      rewrite Hd53 in Hmlo. change (2 ^ (53 - 1)) with (Zpos 4503599627370496) in Hmlo.
      lia. }
    clear H0 H1.
    destruct (mul_below m e my ey Hwf He Hdy Hey) as [->|(m3 & e3 & -> & Hbelow)].
    + exists 0. split; [reflexivity|lia].
    + exists (numerator m3 e3 / denominator e3). split; [reflexivity|].
      pose proof (numerator_pos m3 e3). pose proof (denominator_pos e3).
      pose proof (denominator_pos ey).
      split; [apply Z.div_pos; lia|].
      apply Z.div_lt_upper_bound; [lia|].
      rewrite Hval in Hbelow.
      apply Z.mul_lt_mono_pos_r with (denominator ey); [assumption|].
      lia.
Qed.

End RoundingFacts.

(** * Further properties of the page script *)

Section SamplingRange.

Local Open Scope Z_scope.

(** The draw, spelled out: the index is within the array and the review at
    that index is what [getRandomReview] returns. *)
Lemma getRandomReview_index (st : State) (r : number) :
  reviews st <> [] ->
  Z.of_nat (List.length (reviews st)) < 2 ^ 53 ->
  wf r -> le zero r = true -> lt r one = true ->
  exists i x,
    floor (mul r (of_nat (List.length (reviews st)))) = Some i
    /\ 0 <= i < Z.of_nat (List.length (reviews st))
    /\ nth_error (reviews st) (Z.to_nat i) = Some x
    /\ getRandomReview r st = (Ok (Some x), st, []).
Proof.
  intros Hne Hlen Hwf H0 H1.
  assert (Hn : (1 <= List.length (reviews st))%nat)
    by (destruct (reviews st); [congruence|cbn; lia]).
  destruct (floor_draw_in_range r _ Hwf H0 H1 Hn Hlen) as (i & Hi & Hrange).
  destruct (nth_error (reviews st) (Z.to_nat i)) as [x|] eqn:Ex.
  - exists i, x. repeat split; try assumption; try lia.
    unfold getRandomReview, bind, gets, throw, ret.
    destruct (Nat.eqb_spec (List.length (reviews st)) 0) as [Hz|_]; [lia|].
    rewrite Hi. destruct (Z.leb_spec 0 i); [|lia]. now rewrite Ex.
  - apply nth_error_None in Ex. lia.
Qed.

(** X1.  Over a non-empty dataset (of fewer than 2^53 reviews)
    [getRandomReview] returns one of the reviews for every draw in [0, 1):
    the rounded product never reaches the length, so the index never
    misses the array. *)
Theorem getRandomReview_member (st : State) (r : number) :
  reviews st <> [] ->
  Z.of_nat (List.length (reviews st)) < 2 ^ 53 ->
  wf r -> le zero r = true -> lt r one = true ->
  exists x,
    getRandomReview r st = (Ok (Some x), st, []) /\ In x (reviews st).
Proof.
  intros Hne Hlen Hwf H0 H1.
  destruct (getRandomReview_index st r Hne Hlen Hwf H0 H1)
    as (i & x & _ & _ & Hnth & Hdraw).
  exists x. split; [exact Hdraw|].
  eapply nth_error_In. exact Hnth.
Qed.

End SamplingRange.

Lemma getRandomReview_member_witness :
  let st := loaded ["a"; "b"; "c"] (constant_pipeline "POSITIVE" score_0_98) in
  exists x,
    getRandomReview score_0_952 st = (Ok (Some x), st, [])
    /\ In x ["a"; "b"; "c"].
Proof.
  intro st.
  apply (getRandomReview_member st score_0_952); try reflexivity.
  discriminate.
Defined.

Section ConfidenceRange.

Local Open Scope Z_scope.

Variable Number_toString : number -> string.

(** A well-formed Number between 0 and 1 is a zero, the number 1, or a
    positive double with exponent at most -53. *)
Lemma unit_interval_cases (x : number) :
  wf x -> le zero x = true -> le x one = true ->
  (exists s, x = S754_zero s)
  \/ x = one
  \/ (exists m e, x = S754_finite false m e
                  /\ bounded prec emax m e = true /\ e <= -53).
Proof.
  unfold wf, le, zero, one, SFleb, SFcompare.
  destruct x as [s|s| |s m e]; cbn [valid_binary]; intros Hb H0 H1.
  - left. now exists s.
  - destruct s; discriminate.
  - discriminate.
  - destruct s; [discriminate|]. right. clear H0.
    destruct (Z.compare_spec e (-52)) as [->|He|He]; [left|right|discriminate].
    + rewrite Pos.compare_cont_spec in H1.
      assert (Hle : Zpos m <= Zpos 4503599627370496).
      { destruct (Pos.compare_spec m 4503599627370496) as [H|H|H];
          cbn [Pos.switch_Eq] in H1.
        - rewrite H. apply Z.le_refl.
        - apply Z.lt_le_incl, Pos2Z.pos_lt_pos, H.
        - discriminate H1. }
      clear H1.
      pose proof (digits2_pos_bounds m) as [Hmlo _].
      unfold bounded, canonical_mantissa, fexp, emin, prec, emax in Hb.
      apply andb_true_iff in Hb as [Hc _]. apply Z.eqb_eq in Hc.
      assert (Hd53 : Zpos (digits2_pos m) = 53) by lia.
      rewrite Hd53 in Hmlo.
      change (2 ^ (53 - 1)) with (Zpos 4503599627370496) in Hmlo.
      f_equal. apply Pos2Z.inj. apply Z.le_antisymm; assumption.
    + clear H1. exists m, e. repeat split; try assumption. lia.
Qed.

(** For a score in [0, 1], [(score * 100).toFixed(1)] denotes a number of
    tenths between 0 and 1000: the confidence lies between 0.0 and
    100.0. *)
Lemma toFixed_percent_range (x : number) :
  wf x -> le zero x = true -> le x one = true ->
  exists n : Z,
    denotes_tenths (toFixed Number_toString (mul x hundred) 1) n
    /\ 0 <= n <= 1000.
Proof.
  intros Hwf H0 H1.
  destruct (unit_interval_cases x Hwf H0 H1)
    as [[s ->]|[->|(m & e & -> & Hb & He)]].
  - exists 0. split; [|lia]. cbn [mul SFmul hundred toFixed].
    apply place_point_tenths. lia.
  - exists 1000. split; [|lia].
    change (toFixed Number_toString (mul one hundred) 1)
      with (place_point 1000 1).
    apply place_point_tenths. lia.
  - destruct (mul_below m e 7036874417766400 (-46) Hb He eq_refl ltac:(lia))
      as [Hz|(m3 & e3 & Hf & Hlt)]; fold hundred in *.
    + exists 0. rewrite Hz. split; [|lia]. cbn [toFixed].
      apply place_point_tenths. lia.
    + exists (nearest_scaled m3 e3 1). rewrite Hf. cbn [toFixed].
      pose proof (denominator_pos e3) as Hd.
      pose proof (numerator_pos m3 e3) as Hn.
      change (numerator 7036874417766400 (-46)) with 7036874417766400 in Hlt.
      change (denominator (-46)) with 70368744177664 in Hlt.
      assert (Hlt' : numerator m3 e3 < 100 * denominator e3) by lia.
      destruct (Z.leb_spec (10 ^ 21 * denominator e3) (numerator m3 e3))
        as [Hbig|_].
      * exfalso. change (10 ^ 21) with 1000000000000000000000 in Hbig. lia.
      * cbn [append]. split; [apply place_point_tenths, nearest_scaled_nonneg|].
        split; [apply nearest_scaled_nonneg|].
        unfold nearest_scaled. change (10 ^ Z.of_nat 1) with 10.
        apply Z.lt_succ_r. apply Z.div_lt_upper_bound; lia.
Qed.

(** X2.  For a score in [0, 1] the confidence of the analysis is a one
    decimal numeral between 0.0 and 100.0. *)
Theorem confidence_within_percent
        (st : State) (p : pipeline) (t : string)
        (primary : RawClassification) (rest : list RawClassification) :
  sentimentPipeline st = Some p ->
  ~ all_white t ->
  p t = Ok (Results (primary :: rest)) ->
  wf (raw_score primary) ->
  le zero (raw_score primary) = true ->
  le (raw_score primary) one = true ->
  exists a (n : Z),
    analyzeSentiment Number_toString (Some t) st = (Ok a, st, [])
    /\ denotes_tenths (confidence a) n
    /\ 0 <= n <= 1000.
Proof.
  intros Hp Ht Hr Hwf H0 H1.
  assert (Hb : blank t = false).
  { destruct (blank t) eqn:E; [|reflexivity]. now apply blank_spec in E. }
  destruct (toFixed_percent_range _ Hwf H0 H1) as (n & Hd & Hn).
  eexists; exists n.
  split; [apply (analyzeSentiment_ok _ st p t primary rest Hp Hb Hr)|].
  cbn [confidence]. split; assumption.
Qed.

End ConfidenceRange.

Lemma confidence_within_percent_witness :
  let st := loaded ["Great product!"] (constant_pipeline "POSITIVE" one) in
  exists a (n : Z),
    analyzeSentiment toString_integral (Some "Great product!") st
    = (Ok a, st, [])
    /\ denotes_tenths (confidence a) n
    /\ (0 <= n <= 1000)%Z.
Proof.
  intro st.
  exact (confidence_within_percent toString_integral st
           (constant_pipeline "POSITIVE" one) "Great product!"
           {| raw_label := "POSITIVE"; raw_score := one |} []
           eq_refl not_all_white_review eq_refl eq_refl eq_refl eq_refl).
Defined.

(** * Startup *)

Section StartupFacts.

Variable Number_toString : number -> string.
Variable parse_text_column : string -> list cell.

Lemma valid_text_spec (s : string) :
  valid_text (CellString s) = true <-> ~ all_white s.
Proof.
  rewrite <- blank_spec. unfold valid_text, blank.
  destruct (truthy s); cbn [negb andb orb].
  - destruct (String.length (trim s)); cbn; split; congruence.
  - split; [discriminate|]. intro H. now elim H.
Qed.

Lemma review_texts_In (cells : list cell) (s : string) :
  In s (review_texts cells) <-> In (CellString s) cells /\ ~ all_white s.
Proof.
  induction cells as [|c cells IH]; cbn [review_texts In]; [tauto|].
  destruct c as [|t|].
  - rewrite IH. intuition discriminate.
  - destruct (valid_text (CellString t)) eqn:V.
    + apply valid_text_spec in V. cbn [In]. rewrite IH. split.
      * intros [->|[H1 H2]]; auto.
      * intros [[H|H] H2]; [left; congruence|right; auto].
    + rewrite IH. split; [intuition|].
      intros [[H|H] H2]; [|auto]. injection H as ->.
      apply valid_text_spec in H2. congruence.
  - rewrite IH. intuition discriminate.
Qed.

Lemma review_texts_nonblank (cells : list cell) :
  Forall (fun s => ~ all_white s) (review_texts cells).
Proof. apply Forall_forall. intros s H. now apply review_texts_In in H. Qed.

(** The reviews keep the order of the rows. *)
Lemma review_texts_app (a b : list cell) :
  review_texts (a ++ b) = (review_texts a ++ review_texts b)%list.
Proof.
  induction a as [|c a IH]; cbn [review_texts app]; [reflexivity|].
  destruct c; try assumption.
  destruct (valid_text _); cbn [app]; now rewrite IH.
Qed.

(** X3.  When the file is fetched and some row has a non-blank [text],
    [loadReviews] stores exactly the non-blank string cells of the [text]
    column, none of them blank, and sets [reviewsLoaded]. *)
Theorem loadReviews_success
        (st : State) (status : number) (statusText body : string) :
  review_texts (parse_text_column body) <> [] ->
  loadReviews Number_toString parse_text_column
              (Response true status statusText (Ok body)) st
  = (Ok tt,
     set_reviewsLoaded true
       (set_reviews (review_texts (parse_text_column body)) st), [])
  /\ Forall (fun s => ~ all_white s) (review_texts (parse_text_column body))
  /\ (forall s, In s (review_texts (parse_text_column body)) <->
                In (CellString s) (parse_text_column body) /\ ~ all_white s).
Proof.
  intro Hne. split; [|split; [apply review_texts_nonblank
                             |intro s; apply review_texts_In]].
  unfold loadReviews, bind, lift, modify. cbn [negb].
  destruct (review_texts (parse_text_column body)) as [|x rs]; [congruence|].
  reflexivity.
Qed.

(** X4.  A failed [loadReviews] never sets [reviewsLoaded] and touches no
    global but [reviews], which it either leaves alone or, when the file
    holds no valid row, has already emptied. *)
Theorem loadReviews_failure
        (resp : tsv_fetch) (st st' : State) (e : error) (ev : list event) :
  loadReviews Number_toString parse_text_column resp st = (Throw e, st', ev) ->
  ev = []
  /\ reviewsLoaded st' = reviewsLoaded st
  /\ modelLoaded st' = modelLoaded st
  /\ sentimentPipeline st' = sentimentPipeline st
  /\ currentAnalysis st' = currentAnalysis st
  /\ (st' = st
      \/ (reviews st' = []
          /\ e = Rejected "No valid reviews found in TSV file")).
Proof.
  unfold loadReviews, bind, lift, modify, throw.
  destruct resp as [e0|ok status statusText [body|e0]].
  - intro H. injection H as <- <- <-. repeat split; auto.
  - destruct ok; cbn [negb].
    + destruct (review_texts (parse_text_column body)) as [|x rs] eqn:R;
        cbn [List.length Nat.eqb]; intro H; [|discriminate].
      injection H as <- <- <-. cbn. repeat split; auto.
    + intro H. injection H as <- <- <-. repeat split; auto.
  - destruct ok; cbn [negb]; intro H; injection H as <- <- <-;
      repeat split; auto.
Qed.

(** X5.  The [DOMContentLoaded] handler enables the analyze button exactly
    when both loads succeed, and the page is then ready; otherwise it shows
    one initialization error. It never throws. *)
Theorem initialize_outcome
        (order : settle_order) (resp : tsv_fetch) (built : result pipeline)
        (st : State) :
  exists (b : bool) (st' : State) (ev : list event),
    initialize Number_toString parse_text_column order resp built st
    = (Ok b, st', ev)
    /\ (b = true <->
        exists status statusText body p,
          resp = Response true status statusText (Ok body)
          /\ review_texts (parse_text_column body) <> []
          /\ built = Ok p)
    /\ (b = true -> Ready st' /\ ev = []
                    /\ currentAnalysis st' = currentAnalysis st)
    /\ (b = false ->
        exists e,
          ev = [ShowError ("Failed to initialize application: " ++ message e)]).
Proof.
  unfold initialize, settled, after_loads, loadModel, loadReviews, bind, lift,
    modify, throw, ret, showError, emit.
  destruct order, resp as [e0|[|] status statusText [body|e0]], built as [p|e1];
    cbn [negb]; try destruct (review_texts (parse_text_column body)) as [|x rs] eqn:R;
    cbn [List.length Nat.eqb app]; do 3 eexists; (split; [reflexivity|]);
    (split; [split; [try discriminate|]|split; [try discriminate|]]).
  all: try (intros (? & ? & ? & ? & H1 & H2 & H3); congruence).
  all: try (intros _; exists status, statusText, body, p; rewrite R;
            repeat split; discriminate).
  all: try (intros _; repeat split; cbn; try discriminate;
            rewrite <- R; apply review_texts_nonblank).
  all: try (intros _; eexists; reflexivity).
  all: try discriminate.
Qed.

(** X6.  Which load settles first changes neither the result of the
    handler nor the globals it leaves behind, and it changes what is shown
    only when both loads fail: the one error shown is then that of the load
    that failed first, the rejection [Promise.all] passes on. *)
Theorem initialize_settle_order
        (resp : tsv_fetch) (built : result pipeline) (st : State) :
  fst (initialize Number_toString parse_text_column ReviewsFirst resp built st)
  = fst (initialize Number_toString parse_text_column ModelFirst resp built st)
  /\ (forall e1 e2,
        fst (fst (loadReviews Number_toString parse_text_column resp st))
        = Throw e1 ->
        fst (fst (loadModel built st)) = Throw e2 ->
        snd (initialize Number_toString parse_text_column
                        ReviewsFirst resp built st)
        = [ShowError ("Failed to initialize application: " ++ message e1)]
        /\ snd (initialize Number_toString parse_text_column
                           ModelFirst resp built st)
           = [ShowError ("Failed to initialize application: " ++ message e2)])
  /\ (fst (fst (loadReviews Number_toString parse_text_column resp st)) = Ok tt
      \/ fst (fst (loadModel built st)) = Ok tt ->
      snd (initialize Number_toString parse_text_column
                      ReviewsFirst resp built st)
      = snd (initialize Number_toString parse_text_column
                        ModelFirst resp built st)).
Proof.
  unfold initialize, settled, after_loads, loadModel, loadReviews, bind, lift,
    modify, throw, ret, showError, emit.
  destruct resp as [e0|[|] status statusText [body|e0]], built as [p|e1];
    cbn [negb]; try destruct (review_texts (parse_text_column body)) as [|x rs];
    cbn [List.length Nat.eqb fst snd app];
    (split; [reflexivity|]); split;
    try (intros e1' e2' He1 He2; try discriminate He1; try discriminate He2;
         injection He1 as <-; injection He2 as <-; split; reflexivity);
    try (intros [H|H]; try discriminate H; reflexivity).
Qed.

End StartupFacts.

(** * Clicks *)

Section ClickFacts.

Local Open Scope Z_scope.

Variable Number_toString : number -> string.
Variable JSON_stringify : json -> string.
Variable cfg : Config.

Lemma is_lower_upper_char (c : ascii) : is_lower (upper_char c) = false.
Proof.
  destruct (is_lower (upper_char c)) eqn:E; [|reflexivity].
  apply is_lower_spec in E.
  destruct (upper_char_code c) as [[Hr Ec]|(H1 & H2 & Ec)];
    rewrite Ec in E; lia.
Qed.

Lemma toUpperCase_no_lower (s : string) : no_lower (toUpperCase s).
Proof.
  induction s as [|c s IH]; cbn; [exact I|].
  split; [apply is_lower_upper_char|exact IH].
Qed.

Lemma categorize_three (l : string) (s : number) :
  categorize l s = "positive" \/ categorize l s = "negative"
  \/ categorize l s = "neutral".
Proof.
  unfold categorize.
  destruct (includes l "POSITIVE" && gt s half); [now left|].
  destruct (includes l "NEGATIVE" && gt s half); [right; now left|].
  right; now right.
Qed.

(** What [analyzeRandomReview] does once the gate has been passed and
    review [x] has been drawn. *)
Lemma analyzeRandomReview_drawn
      (st : State) (r : number) (now x : string) (p : pipeline) :
  modelLoaded st = true -> reviewsLoaded st = true ->
  sentimentPipeline st = Some p ->
  getRandomReview r st = (Ok (Some x), st, []) ->
  ~ all_white x ->
  analyzeRandomReview Number_toString r now st
  = analysis_outcome Number_toString st x now (p x).
Proof.
  intros Hm Hr Hp Hdraw Hx.
  assert (Hb : blank x = false).
  { destruct (blank x) eqn:E; [|reflexivity]. now apply blank_spec in E. }
  unfold analyzeRandomReview, bind, gets, try_catch, modify, emit, showError.
  rewrite Hm, Hr. cbn [negb orb]. rewrite Hdraw.
  unfold analyzeSentiment, analysis_outcome, bind, gets, lift, throw, ret.
  rewrite Hp, Hb.
  destruct (p x) as [[|[|primary rest]]|e]; reflexivity.
Qed.

(** X7.  On a ready page [analyzeRandomReview] fails only through the
    engine: for a draw in [0, 1) it analyses one of the reviews, and its
    outcome is decided by the pipeline's answer on that review alone. *)
Theorem analyzeRandomReview_ready (st : State) (r : number) (now : string) :
  Ready st ->
  Z.of_nat (List.length (reviews st)) < 2 ^ 53 ->
  wf r -> le zero r = true -> lt r one = true ->
  exists x p,
    In x (reviews st)
    /\ sentimentPipeline st = Some p
    /\ analyzeRandomReview Number_toString r now st
       = analysis_outcome Number_toString st x now (p x).
Proof.
  intros (Hm & Hr & Hp & Hne & Hall) Hlen Hwf H0 H1.
  destruct (getRandomReview_index st r Hne Hlen Hwf H0 H1)
    as (i & x & _ & _ & Hnth & Hdraw).
  assert (Hin : In x (reviews st)) by (eapply nth_error_In; exact Hnth).
  destruct (sentimentPipeline st) as [p|] eqn:Ep; [|congruence].
  exists x, p. split; [assumption|]. split; [reflexivity|].
  apply analyzeRandomReview_drawn; try assumption.
  rewrite Forall_forall in Hall. now apply Hall.
Qed.

(** The two ways [analyzeRandomReview] can end. *)
Lemma analyzeRandomReview_outcomes (st : State) (r : number) (now : string) :
  exists (st' : State) (ev : list event),
    analyzeRandomReview Number_toString r now st = (Ok tt, st', ev)
    /\ ((st' = st /\ exists msg, ev = [ShowError msg])
        \/ exists x a,
             In x (reviews st)
             /\ ~ all_white x
             /\ well_formed_analysis Number_toString a
             /\ st' = set_currentAnalysis
                        {| review := Some x; analysis := a; timestamp := now |}
                        st
             /\ ev = [UpdateUI (Some x) a]).
Proof.
  assert (Hshown : forall msg : string,
             exists (st' : State) (ev : list event),
               (Ok tt, st, [ShowError msg]) = (Ok tt, st', ev)
               /\ ((st' = st /\ exists msg0, ev = [ShowError msg0])
                   \/ exists x a,
                        In x (reviews st)
                        /\ ~ all_white x
                        /\ well_formed_analysis Number_toString a
                        /\ st' = set_currentAnalysis
                                   {| review := Some x; analysis := a;
                                      timestamp := now |} st
                        /\ ev = [UpdateUI (Some x) a])).
  { intro msg. exists st, [ShowError msg]. split; [reflexivity|left]. eauto. }
  unfold analyzeRandomReview, bind, gets, try_catch, modify, emit, showError.
  destruct (modelLoaded st) eqn:Hm, (reviewsLoaded st) eqn:Hr; cbn [negb orb];
    try apply Hshown.
  unfold getRandomReview, bind, gets, throw, ret.
  destruct (Nat.eqb_spec (List.length (reviews st)) 0) as [_|_];
    [apply Hshown|].
  set (i := floor (mul r (of_nat (List.length (reviews st))))).
  set (drawn := match i with
                | Some i0 => if 0 <=? i0 then nth_error (reviews st) (Z.to_nat i0)
                             else None
                | None => None
                end).
  assert (Hdrawn : forall x, drawn = Some x -> In x (reviews st)).
  { intros x. unfold drawn. destruct i as [i0|]; [|discriminate].
    destruct (0 <=? i0); [|discriminate]. apply nth_error_In. }
  clearbody drawn. clear i.
  unfold analyzeSentiment, bind, gets, lift, throw, ret.
  destruct (sentimentPipeline st) as [p|]; [|apply Hshown].
  destruct drawn as [x|]; [|apply Hshown].
  destruct (blank x) eqn:Hb; [apply Hshown|].
  destruct (p x) as [[|[|primary rest]]|e]; try apply Hshown.
  do 2 eexists. split; [reflexivity|]. right. do 2 eexists.
  split; [apply Hdrawn; reflexivity|].
  split; [intro Hw; apply blank_spec in Hw; congruence|].
  split; [|split; reflexivity].
  unfold well_formed_analysis. cbn [label score sentiment confidence].
  split; [apply toUpperCase_no_lower|]. split; [reflexivity|].
  split; [apply categorize_three|reflexivity].
Qed.

(** X8.  [analyzeRandomReview] is all or nothing.  It never throws; it
    either stores a well-formed analysis of a non-blank review of the
    dataset, stamped with the time of the click, and updates the display,
    or it leaves every global as it was and shows exactly one error. *)
Theorem analyzeRandomReview_atomic (st : State) (r : number) (now : string) :
  exists (st' : State) (ev : list event),
    analyzeRandomReview Number_toString r now st = (Ok tt, st', ev)
    /\ ((st' = st /\ exists msg, ev = [ShowError msg])
        \/ exists x a,
             In x (reviews st)
             /\ ~ all_white x
             /\ well_formed_analysis Number_toString a
             /\ st' = set_currentAnalysis
                        {| review := Some x; analysis := a; timestamp := now |}
                        st
             /\ ev = [UpdateUI (Some x) a]).
Proof.
  destruct (analyzeRandomReview_outcomes st r now) as (st' & ev & Hrun & Hcases).
  exists st', ev. split; [exact Hrun|].
  destruct Hcases as [Hfail|Hstored]; [left|right]; assumption.
Qed.

End ClickFacts.

Section ClickSequences.

Local Open Scope Z_scope.

Variable Number_toString : number -> string.
Variable JSON_stringify : json -> string.
Variable cfg : Config.

(** [logToGoogleSheets] never throws and writes no global. *)
Lemma logToGoogleSheets_pure
      (st : State) (env : ClientEnv) (t1 t2 : string) (net : fetch_result) :
  exists ev,
    logToGoogleSheets Number_toString JSON_stringify cfg env t1 t2 net st
    = (Ok tt, st, ev)
    /\ (not_configured cfg = true -> Forall (fun e => is_post e = false) ev).
Proof.
  unfold logToGoogleSheets, bind, gets, try_catch, collectMetadata, ret,
    emit, throw, showError.
  destruct (currentAnalysis st) as [ca|];
    [|eexists; split; [reflexivity|intros _; repeat constructor]].
  destruct (not_configured cfg);
    [eexists; split; [reflexivity|intros _; repeat constructor]|].
  destruct net; eexists; (split; [reflexivity|discriminate]).
Qed.

(** One click: it never throws, it writes no global but [currentAnalysis],
    and what it stores there is a well-formed analysis of a review of the
    dataset. *)
Lemma handle_step (c : click) (st : State) :
  exists st' ev,
    handle Number_toString JSON_stringify cfg c st = (Ok tt, st', ev)
    /\ reviews st' = reviews st
    /\ sentimentPipeline st' = sentimentPipeline st
    /\ modelLoaded st' = modelLoaded st
    /\ reviewsLoaded st' = reviewsLoaded st
    /\ (stored_analysis_ok Number_toString st ->
        stored_analysis_ok Number_toString st')
    /\ (not_configured cfg = true -> Forall (fun e => is_post e = false) ev).
Proof.
  destruct c as [r now|env t1 t2 net]; cbn [handle].
  - destruct (analyzeRandomReview_outcomes Number_toString st r now)
      as (st' & ev & Hrun & [[-> [msg ->]]|(x & a & Hin & Hx & Ha & -> & ->)]).
    + exists st, [ShowError msg]. repeat split; auto;
        intros _; repeat constructor.
    + eexists _, _. split; [exact Hrun|].
      cbn [reviews sentimentPipeline modelLoaded reviewsLoaded
           set_currentAnalysis].
      do 4 (split; [reflexivity|]). split.
      * intros _ ca Hca. cbn in Hca. injection Hca as <-. exists x. auto.
      * intros _. repeat constructor.
  - destruct (logToGoogleSheets_pure st env t1 t2 net) as (ev & Hrun & Hev).
    exists st, ev. repeat split; auto.
Qed.

(** X9.  Whatever the user clicks, in whatever order, no handler throws,
    the dataset, the pipeline and the two load flags stay as the startup
    left them, and the stored analysis stays a well-formed analysis of a
    non-blank review of the dataset. *)
Theorem clicks_keep_invariants (cs : list click) (st : State) :
  stored_analysis_ok Number_toString st ->
  exists st' ev,
    handle_all Number_toString JSON_stringify cfg cs st = (Ok tt, st', ev)
    /\ reviews st' = reviews st
    /\ sentimentPipeline st' = sentimentPipeline st
    /\ modelLoaded st' = modelLoaded st
    /\ reviewsLoaded st' = reviewsLoaded st
    /\ stored_analysis_ok Number_toString st'.
Proof.
  revert st. induction cs as [|c cs IH]; intros st Hok; cbn [handle_all].
  - exists st, []. repeat split; auto.
  - destruct (handle_step c st)
      as (st1 & ev1 & Hrun & H1 & H2 & H3 & H4 & H5 & _).
    destruct (IH st1 (H5 Hok)) as (st2 & ev2 & Hrun2 & G1 & G2 & G3 & G4 & G5).
    exists st2, (ev1 ++ ev2)%list. unfold bind. rewrite Hrun, Hrun2.
    repeat split; try congruence. exact G5.
Qed.

(** X10.  While the endpoint URL is the placeholder of the source (or
    empty), no sequence of clicks posts anything. *)
Theorem clicks_never_post_unconfigured (cs : list click) (st : State) :
  not_configured cfg = true ->
  Forall (fun e => is_post e = false)
         (snd (handle_all Number_toString JSON_stringify cfg cs st)).
Proof.
  intro Hcfg. revert st.
  induction cs as [|c cs IH]; intro st; cbn [handle_all].
  - constructor.
  - destruct (handle_step c st) as (st1 & ev1 & Hrun & _ & _ & _ & _ & _ & Hev).
    unfold bind. rewrite Hrun. specialize (IH st1).
    destruct (handle_all Number_toString JSON_stringify cfg cs st1)
      as [[r2 st2] ev2]. cbn [snd] in *.
    apply Forall_app. split; [apply Hev, Hcfg|exact IH].
Qed.

(** X11.  Analyze, then log.  On a ready, configured page whose pipeline
    classifies every review, [analyzeRandomReview] stores an analysis of the
    review it drew.  A [logToGoogleSheets] that starts once that analysis
    is stored posts a record of it: its [ts_iso] is the time of the
    analysis, not of the logging, and its [sentiment] is the upper-cased
    label with the confidence in parentheses.  One that starts before,
    while the analysis still awaits the pipeline, finds the globals as they
    were and posts the analysis stored earlier, under its own time. *)
Theorem log_after_analysis
        (st : State) (p : pipeline) (r : number) (now : string)
        (env : ClientEnv) (t1 t2 : string) (net : fetch_result) :
  Ready st ->
  sentimentPipeline st = Some p ->
  (forall x, In x (reviews st) ->
             exists primary rest,
               p x = Ok (Results (primary :: rest))
               /\ upper_within (raw_label primary) = true) ->
  not_configured cfg = false ->
  Z.of_nat (List.length (reviews st)) < 2 ^ 53 ->
  wf r -> le zero r = true -> lt r one = true ->
  exists x primary rest st1,
    In x (reviews st)
    /\ p x = Ok (Results (primary :: rest))
    /\ analyzeRandomReview Number_toString r now st
       = (Ok tt, st1,
          [UpdateUI (Some x)
             {| label := toUpperCase (raw_label primary);
                score := raw_score primary;
                sentiment := categorize (toUpperCase (raw_label primary))
                                        (raw_score primary);
                confidence := toFixed Number_toString
                                      (mul (raw_score primary) hundred) 1 |}])
    /\ (forall st2, currentAnalysis st2 = currentAnalysis st1 ->
          exists payload after,
            snd (logToGoogleSheets Number_toString JSON_stringify cfg
                                   env t1 t2 net st2)
            = FetchPost (GOOGLE_SCRIPT_URL cfg)
                        (JSON_stringify (payload_json payload)) :: after
            /\ ts_iso payload = now
            /\ payload_review payload = Some x
            /\ payload_sentiment payload
               = toUpperCase (raw_label primary) ++ " ("
                 ++ toFixed Number_toString (mul (raw_score primary) hundred) 1
                 ++ "%)")
    /\ (forall old, currentAnalysis st = Some old ->
          exists payload after,
            snd (logToGoogleSheets Number_toString JSON_stringify cfg
                                   env t1 t2 net st)
            = FetchPost (GOOGLE_SCRIPT_URL cfg)
                        (JSON_stringify (payload_json payload)) :: after
            /\ ts_iso payload = timestamp old
            /\ payload_review payload = review old
            /\ payload_sentiment payload
               = label (analysis old) ++ " (" ++ confidence (analysis old)
                 ++ "%)").
Proof.
  intros Hready Hp Hall Hcfg Hlen Hwf H0 H1.
  destruct Hready as (Hm & Hr & _ & Hne & Hnonblank).
  destruct (getRandomReview_index st r Hne Hlen Hwf H0 H1)
    as (i & x & _ & _ & Hnth & Hdraw).
  assert (Hin : In x (reviews st)) by (eapply nth_error_In; exact Hnth).
  assert (Hx : ~ all_white x)
    by (rewrite Forall_forall in Hnonblank; now apply Hnonblank).
  pose proof (analyzeRandomReview_drawn Number_toString st r now x p
                Hm Hr Hp Hdraw Hx) as Hrun.
  destruct (Hall x Hin) as (primary & rest & Hans & _).
  rewrite Hans in Hrun. cbn [analysis_outcome] in Hrun.
  exists x, primary, rest. eexists.
  split; [exact Hin|]. split; [exact Hans|]. split; [exact Hrun|]. split.
  - intros st2 H2.
    unfold logToGoogleSheets, bind, gets, try_catch, collectMetadata,
      ret, emit, throw, showError.
    rewrite H2. cbn [currentAnalysis set_currentAnalysis]. rewrite Hcfg.
    destruct net; do 2 eexists; cbn [snd fst app];
      (split; [reflexivity|]); repeat split; reflexivity.
  - intros old Hold.
    unfold logToGoogleSheets, bind, gets, try_catch, collectMetadata,
      ret, emit, throw, showError.
    rewrite Hold, Hcfg.
    destruct net; do 2 eexists; cbn [snd fst app];
      (split; [reflexivity|]); repeat split; reflexivity.
Qed.

End ClickSequences.

(** * The logging endpoint *)

Module AppsScriptFacts.
Import AppsScript.

Lemma getLastRow_le (g : Grid) : (getLastRow g <= List.length g)%nat.
Proof.
  induction g as [|r g IH]; cbn [getLastRow List.length]; [lia|].
  destruct (getLastRow g); [destruct (has_content r)|]; lia.
Qed.

(** No row after the last row has content. *)
Lemma no_content_after_last (g : Grid) (i : nat) :
  (getLastRow g < i)%nat -> has_content (row_at g i) = false.
Proof.
  unfold row_at. revert i. induction g as [|r g IH]; intros i H.
  - destruct (i - 1)%nat; reflexivity.
  - cbn [getLastRow] in H.
    destruct (getLastRow g) as [|k] eqn:Ek, (has_content r) eqn:Hr,
             i as [|[|i]]; try lia; try exact Hr;
      replace (S (S i) - 1)%nat with (S i) by lia; cbn [nth];
      specialize (IH (S i)); replace (S i - 1)%nat with i in IH by lia;
      apply IH; lia.
Qed.

Lemma setRow_nth_other (k j : nat) (vals : Row) (g : Grid) :
  j <> k -> nth j (setRow (S k) vals g) [] = nth j g [].
Proof.
  revert j g. induction k as [|k IH]; intros j g Hj.
  - cbn [setRow]. destruct g as [|r g], j as [|j]; try lia; try reflexivity.
    cbn. destruct j; reflexivity.
  - change (setRow (S (S k)) vals g)
      with (match g with
            | [] => [] :: setRow (S k) vals []
            | r :: rest => r :: setRow (S k) vals rest
            end).
    destruct g as [|r g], j as [|j]; try reflexivity; cbn [nth].
    + rewrite IH by lia. destruct j; reflexivity.
    + apply IH. lia.
Qed.

(** Writing a row leaves the other rows as they were. *)
Lemma setRow_other (i j : nat) (vals : Row) (g : Grid) :
  (1 <= i)%nat -> (1 <= j)%nat -> j <> i ->
  row_at (setRow i vals g) j = row_at g j.
Proof.
  intros Hi Hj Hne. unfold row_at. destruct i as [|k]; [lia|].
  apply setRow_nth_other. lia.
Qed.

Lemma setRow_nth_same (k : nat) (vals : Row) (g : Grid) :
  firstn (List.length vals) (nth k (setRow (S k) vals g) []) = vals.
Proof.
  revert g. induction k as [|k IH]; intro g.
  - cbn [setRow]. destruct g as [|r g]; cbn [nth].
    + apply firstn_all.
    + rewrite firstn_app, firstn_all, Nat.sub_diag. cbn. apply app_nil_r.
  - change (setRow (S (S k)) vals g)
      with (match g with
            | [] => [] :: setRow (S k) vals []
            | r :: rest => r :: setRow (S k) vals rest
            end).
    destruct g as [|r g]; cbn [nth]; apply IH.
Qed.

(** The written row starts with the written values. *)
Lemma setRow_same (i : nat) (vals : Row) (g : Grid) :
  (1 <= i)%nat ->
  firstn (List.length vals) (row_at (setRow i vals g) i) = vals.
Proof.
  intro Hi. unfold row_at. destruct i as [|k]; [lia|].
  replace (S k - 1)%nat with k by lia. apply setRow_nth_same.
Qed.

Lemma has_content_app (a b : Row) :
  has_content a = true -> has_content (a ++ b)%list = true.
Proof.
  unfold has_content. rewrite existsb_app. intros ->. reflexivity.
Qed.

(** Writing a row with content just after the last row moves the last row
    by one. *)
Lemma getLastRow_setRow (vals : Row) (g : Grid) :
  has_content vals = true ->
  getLastRow (setRow (getLastRow g + 1) vals g) = (getLastRow g + 1)%nat.
Proof.
  intro Hc. induction g as [|r g IH].
  - cbn. now rewrite Hc.
  - cbn [getLastRow]. destruct (getLastRow g) as [|k] eqn:Ek.
    + destruct (has_content r) eqn:Hr.
      * change (setRow (1 + 1) vals (r :: g)) with (r :: setRow (0 + 1) vals g).
        cbn [getLastRow]. rewrite IH. reflexivity.
      * change (setRow (0 + 1) vals (r :: g))
          with ((vals ++ skipn (List.length vals) r)%list :: g).
        cbn [getLastRow]. rewrite Ek.
        now rewrite (has_content_app _ _ Hc).
    + replace (S (S k) + 1)%nat with (S (S k + 1)) by lia.
      change (setRow (S (S k + 1)) vals (r :: g))
        with (match (S k + 1)%nat with
              | O => (vals ++ skipn (List.length vals) r)%list :: g
              | S _ => r :: setRow (S k + 1) vals g
              end).
      replace (S k + 1)%nat with (S (S k)) in * by lia.
      cbn [getLastRow]. rewrite IH. reflexivity.
Qed.

Lemma put_sheet_same (name : string) (g : Grid) (b : Book) :
  getSheetByName name (put_sheet name g b) = Some g.
Proof.
  induction b as [|[n g0] b IH]; cbn [put_sheet getSheetByName].
  - now rewrite String.eqb_refl.
  - destruct (String.eqb n name) eqn:E; cbn [getSheetByName]; rewrite E;
      [reflexivity|exact IH].
Qed.

Lemma put_sheet_other (name n : string) (g : Grid) (b : Book) :
  n <> name ->
  getSheetByName n (put_sheet name g b) = getSheetByName n b.
Proof.
  intro H. induction b as [|[m g0] b IH]; cbn [put_sheet getSheetByName].
  - destruct (String.eqb_spec name n); [congruence|reflexivity].
  - destruct (String.eqb_spec m name) as [->|Hm]; cbn [getSheetByName].
    + destruct (String.eqb_spec name n); [congruence|reflexivity].
    + destruct (String.eqb m n); [reflexivity|exact IH].
Qed.

Lemma other_sheets_other (name n : string) (b : Book) :
  n <> name ->
  getSheetByName n (other_sheets name b) = getSheetByName n b.
Proof.
  intro H. induction b as [|[m g0] b IH]; cbn; [reflexivity|].
  destruct (String.eqb_spec m name) as [->|Hm]; cbn.
  - destruct (String.eqb_spec name n); [congruence|exact IH].
  - destruct (String.eqb m n); [reflexivity|exact IH].
Qed.

(** Deleting is refused exactly when no other sheet is there. *)
Lemma other_sheets_nil (name : string) (b : Book) :
  other_sheets name b = []
  <-> forall n, n <> name -> getSheetByName n b = None.
Proof.
  induction b as [|[m g0] b IH]; cbn; [tauto|].
  destruct (String.eqb_spec m name) as [->|Hm]; cbn.
  - rewrite IH. split; intros H n Hn; specialize (H n Hn).
    + destruct (String.eqb_spec name n); [congruence|exact H].
    + destruct (String.eqb_spec name n); [congruence|exact H].
  - split; [discriminate|]. intro H. specialize (H m Hm).
    rewrite String.eqb_refl in H. discriminate.
Qed.

(** X12.  With the sheet in place, [doPost] writes the record into the
    row after the last row with content and reports that row; every other
    row and every other sheet stays as it was, so no logged row is ever
    overwritten, and a record with content becomes the new last row. *)
Theorem doPost_appends (d : LogData) (b : Book) (g : Grid) :
  getSheetByName sheetName b = Some g ->
  has_content (rowData d) = true ->
  exists (b' : Book) (g' : Grid),
    doPost (Ok d) (Ok b)
    = (Logged "Data logged successfully" (getLastRow g + 1), Ok b')
    /\ getSheetByName sheetName b' = Some g'
    /\ (forall n, n <> sheetName ->
                  getSheetByName n b' = getSheetByName n b)
    /\ firstn 4 (row_at g' (getLastRow g + 1)) = rowData d
    /\ (forall j, (1 <= j)%nat -> j <> (getLastRow g + 1)%nat ->
                  row_at g' j = row_at g j)
    /\ getLastRow g' = (getLastRow g + 1)%nat.
Proof.
  intros Hg Hc. unfold doPost. rewrite Hg.
  eexists _, _. split; [reflexivity|].
  split; [apply put_sheet_same|].
  split; [intros n Hn; now apply put_sheet_other|].
  split; [apply (setRow_same (getLastRow g + 1) (rowData d) g); lia|].
  split; [intros j Hj Hne; apply setRow_other; [lia|assumption|assumption]|].
  now apply getLastRow_setRow.
Qed.

(** X13.  On first use, when the spreadsheet has no sheet 'Logs', [doPost]
    creates it with the header row and puts the record in row 2; the other
    sheets stay as they were. *)
Theorem doPost_first_use (d : LogData) (b : Book) :
  getSheetByName sheetName b = None ->
  exists b' : Book,
    doPost (Ok d) (Ok b) = (Logged "Data logged successfully" 2, Ok b')
    /\ getSheetByName sheetName b' = Some [HEADERS; rowData d]
    /\ (forall n, n <> sheetName ->
                  getSheetByName n b' = getSheetByName n b).
Proof.
  intro Hg. unfold doPost. rewrite Hg.
  eexists. split; [reflexivity|]. split; [apply put_sheet_same|].
  intros n Hn. now rewrite !put_sheet_other.
Qed.

(** X15.  Records with content posted one after the other land in
    consecutive rows after the existing content, in the order of arrival;
    each reply names the row of its record, and the rows that were there
    before are unchanged. *)
Theorem post_all_in_order (ds : list LogData) (b : Book) (g : Grid) :
  getSheetByName sheetName b = Some g ->
  Forall (fun d => has_content (rowData d) = true) ds ->
  exists g',
    getSheetByName sheetName (snd (post_all ds b)) = Some g'
    /\ getLastRow g' = (getLastRow g + List.length ds)%nat
    /\ (forall k d, nth_error ds k = Some d ->
          nth_error (fst (post_all ds b)) k
          = Some (Logged "Data logged successfully" (getLastRow g + k + 1))
          /\ firstn 4 (row_at g' (getLastRow g + k + 1)) = rowData d)
    /\ (forall j, (1 <= j <= getLastRow g)%nat -> row_at g' j = row_at g j).
Proof.
  revert b g. induction ds as [|d ds IH]; intros b g Hg Hall.
  - exists g. cbn. split; [assumption|]. split; [lia|].
    split; [intros [|k] d' H; discriminate|auto].
  - inversion Hall as [|? ? Hd Hrest]; subst.
    assert (Hstep : exists b1 g1,
               doPost (Ok d) (Ok b)
               = (Logged "Data logged successfully" (getLastRow g + 1), Ok b1)
               /\ getSheetByName sheetName b1 = Some g1
               /\ firstn 4 (row_at g1 (getLastRow g + 1)) = rowData d
               /\ (forall j, (1 <= j)%nat -> j <> (getLastRow g + 1)%nat ->
                             row_at g1 j = row_at g j)
               /\ getLastRow g1 = (getLastRow g + 1)%nat).
    { unfold doPost. rewrite Hg. eexists _, _.
      split; [reflexivity|]. split; [apply put_sheet_same|].
      split; [apply (setRow_same (getLastRow g + 1) (rowData d) g); lia|].
      split; [intros j Hj Hne; apply setRow_other; [lia|assumption|assumption]|].
      now apply getLastRow_setRow. }
    destruct Hstep as (b1 & g1 & Hpost & Hg1 & Hrow & Hother & Hlast).
    destruct (IH b1 g1 Hg1 Hrest) as (g' & Hg' & Hlast' & Hrows & Hkeep).
    exists g'. cbn [post_all]. rewrite Hpost.
    destruct (post_all ds b1) as [rs b2] eqn:Epost. cbn [fst snd] in *.
    split; [assumption|]. split; [cbn [List.length]; lia|]. split.
    + intros [|k] d' Hk; cbn [nth_error] in *.
      * injection Hk as <-. rewrite Nat.add_0_r. split; [reflexivity|].
        rewrite Hkeep by lia. exact Hrow.
      * destruct (Hrows k d' Hk) as [Hr1 Hr2]. rewrite Hlast in Hr1, Hr2.
        replace (getLastRow g + S k + 1)%nat
          with (getLastRow g + 1 + k + 1)%nat by lia.
        split; assumption.
    + intros j Hj. rewrite Hkeep by lia. apply Hother; lia.
Qed.

(** X16.  In a spreadsheet that has no 'Logs' sheet, or has another sheet
    beside it, [setupSheet] leaves a 'Logs' sheet that holds the header row
    only, whatever it held before, and leaves the other sheets alone; the
    first record posted afterwards lands in row 2.  In a spreadsheet whose
    only sheet is 'Logs' it throws: the sheet is deleted before the new one
    is inserted, and the last sheet cannot be deleted. *)
Theorem setupSheet_then_post (b : Book) (d : LogData) :
  (getSheetByName sheetName b = None
   \/ (exists n, n <> sheetName /\ getSheetByName n b <> None) ->
   exists b1 b2 : Book,
     setupSheet (Ok b) = Ok b1
     /\ getSheetByName sheetName b1 = Some [HEADERS]
     /\ (forall n, n <> sheetName ->
                   getSheetByName n b1 = getSheetByName n b)
     /\ doPost (Ok d) (Ok b1) = (Logged "Data logged successfully" 2, Ok b2)
     /\ getSheetByName sheetName b2 = Some [HEADERS; rowData d])
  /\ (getSheetByName sheetName b <> None ->
      (forall n, n <> sheetName -> getSheetByName n b = None) ->
      exists e, setupSheet (Ok b) = Throw e).
Proof.
  split.
  - intro Hb.
    assert (Hdel : exists b0,
               match getSheetByName sheetName b with
               | Some _ => deleteSheet sheetName b
               | None => Ok b
               end = Ok b0
               /\ forall n, n <> sheetName ->
                            getSheetByName n b0 = getSheetByName n b).
    { destruct (getSheetByName sheetName b) as [g|] eqn:Eg;
        [|exists b; auto].
      destruct Hb as [Hb|(n & Hn & Hsome)]; [discriminate|].
      unfold deleteSheet.
      destruct (other_sheets sheetName b) as [|sh rest] eqn:Eo.
      - exfalso. apply Hsome. now apply (other_sheets_nil sheetName b).
      - exists (sh :: rest). split; [reflexivity|].
        intros m Hm. rewrite <- Eo. now apply other_sheets_other. }
    destruct Hdel as (b0 & Hdel & Hkeep).
    unfold setupSheet. rewrite Hdel. eexists _, _.
    split; [reflexivity|]. split; [apply put_sheet_same|]. split.
    + intros n Hn. rewrite put_sheet_other by assumption. now apply Hkeep.
    + unfold doPost. rewrite put_sheet_same.
      split; [reflexivity|apply put_sheet_same].
  - intros Hlogs Hnone. unfold setupSheet.
    destruct (getSheetByName sheetName b) as [g|]; [|congruence].
    unfold deleteSheet. apply other_sheets_nil in Hnone. rewrite Hnone.
    eexists. reflexivity.
Qed.

End AppsScriptFacts.

(** * The threshold at one half *)

Section Threshold.

Variable Number_toString : number -> string.

(** X17.  The threshold is strict and wins over the label: a score that is
    NaN, or whose exact value is at most one half, gives 'neutral' whatever
    the label says. *)
Theorem low_score_is_neutral
        (st : State) (p : pipeline) (t : string)
        (primary : RawClassification) (rest : list RawClassification) :
  sentimentPipeline st = Some p ->
  ~ all_white t ->
  p t = Ok (Results (primary :: rest)) ->
  raw_score primary = S754_nan
  \/ (wf (raw_score primary)
      /\ exists v, value (raw_score primary) = Some v /\ (v <= 1 # 2)%Q) ->
  exists a,
    analyzeSentiment Number_toString (Some t) st = (Ok a, st, [])
    /\ sentiment a = "neutral".
Proof.
  intros Hp Ht Hr Hs.
  assert (Hb : blank t = false).
  { destruct (blank t) eqn:E; [|reflexivity]. now apply blank_spec in E. }
  eexists. split; [apply (analyzeSentiment_ok _ st p t primary rest Hp Hb Hr)|].
  cbn [sentiment].
  assert (Hgt : gt (raw_score primary) half = false).
  { destruct Hs as [->|(Hwf & v & Hv & Hle)]; [reflexivity|].
    destruct (gt (raw_score primary) half) eqn:G; [|reflexivity].
    apply (gt_half_value _ v Hwf Hv) in G.
    exfalso. apply (Qlt_irrefl v). eapply Qle_lt_trans; eassumption. }
  unfold categorize. rewrite Hgt, !andb_false_r. reflexivity.
Qed.

End Threshold.

(** * Closed instances of the further properties *)

Lemma ready_page_ready : Ready ready_page.
Proof.
  unfold Ready, ready_page, loaded. cbn.
  repeat split; try discriminate.
  repeat constructor; cbn; intros [H _]; discriminate.
Qed.

Lemma low_score_is_neutral_witness :
  let st := loaded ["Terrible experience."]
                   (constant_pipeline "NEGATIVE" half) in
  exists a,
    analyzeSentiment toString_integral (Some "Great product!") st
    = (Ok a, st, [])
    /\ sentiment a = "neutral".
Proof.
  intro st.
  apply (low_score_is_neutral toString_integral st
           (constant_pipeline "NEGATIVE" half) "Great product!"
           {| raw_label := "NEGATIVE"; raw_score := half |} []
           eq_refl not_all_white_review eq_refl).
  right. split; [reflexivity|]. eexists. split; [reflexivity|].
  unfold Qle. cbn. lia.
Defined.

Lemma loadReviews_success_witness :
  fst (loadReviews toString_integral sample_parse sample_response initial_state)
  = (Ok tt,
     set_reviewsLoaded true
       (set_reviews ["Great product!"; "Terrible experience."] initial_state)).
Proof.
  assert (Hne : review_texts (sample_parse "text") <> []) by discriminate.
  destruct (loadReviews_success toString_integral sample_parse initial_state
              (of_nat 200) "OK" "text" Hne) as [H _].
  unfold sample_response. rewrite H. reflexivity.
Defined.

Lemma loadReviews_failure_witness :
  loadReviews toString_integral sample_parse missing_response initial_state
  = (Throw (Rejected "Failed to load TSV file: 404 Not Found"),
     initial_state, [])
  /\ reviewsLoaded initial_state = false.
Proof.
  split; [reflexivity|].
  exact (proj1 (proj2 (loadReviews_failure toString_integral sample_parse
                         missing_response initial_state initial_state
                         (Rejected "Failed to load TSV file: 404 Not Found") []
                         eq_refl))).
Defined.

Lemma analyzeRandomReview_ready_witness :
  exists x p,
    In x (reviews ready_page)
    /\ sentimentPipeline ready_page = Some p
    /\ analyzeRandomReview toString_integral score_0_952
                           "2026-02-06T10:00:00.000Z" ready_page
       = analysis_outcome toString_integral ready_page x
                          "2026-02-06T10:00:00.000Z" (p x).
Proof.
  apply (analyzeRandomReview_ready toString_integral ready_page score_0_952);
    try reflexivity.
  exact ready_page_ready.
Defined.

Lemma clicks_keep_invariants_witness :
  exists st' ev,
    handle_all toString_integral stringify_plain deployed_config
               sample_clicks ready_page
    = (Ok tt, st', ev)
    /\ reviews st' = reviews ready_page
    /\ stored_analysis_ok toString_integral st'.
Proof.
  assert (Hok : stored_analysis_ok toString_integral ready_page)
    by (intros ca H; discriminate H).
  destruct (clicks_keep_invariants toString_integral stringify_plain
              deployed_config sample_clicks ready_page Hok)
    as (st' & ev & Hrun & Hr & _ & _ & _ & Hs).
  exists st', ev. auto.
Defined.

Lemma clicks_never_post_unconfigured_witness :
  not_configured source_config = true
  /\ Forall (fun e => is_post e = false)
            (snd (handle_all toString_integral stringify_plain source_config
                             sample_clicks ready_page)).
Proof.
  split; [reflexivity|].
  apply (clicks_never_post_unconfigured toString_integral stringify_plain
           source_config sample_clicks ready_page).
  reflexivity.
Defined.

Lemma log_after_analysis_witness :
  exists x st1 payload after,
    analyzeRandomReview toString_integral score_0_952
                        "2026-02-06T10:00:00.000Z" ready_page
    = (Ok tt, st1,
       [UpdateUI (Some x)
          {| label := "POSITIVE"; score := score_0_98;
             sentiment := "positive"; confidence := "98.0" |}])
    /\ snd (logToGoogleSheets toString_integral stringify_plain
              deployed_config sample_env "2026-02-06T10:05:00.000Z"
              "2026-02-06T10:05:00.001Z" FetchResolved st1)
       = FetchPost (GOOGLE_SCRIPT_URL deployed_config)
                   (stringify_plain (payload_json payload)) :: after
    /\ ts_iso payload = "2026-02-06T10:00:00.000Z"
    /\ payload_sentiment payload = "POSITIVE (98.0%)".
Proof.
  destruct (log_after_analysis toString_integral stringify_plain
              deployed_config ready_page
              (constant_pipeline "POSITIVE" score_0_98)
              score_0_952 "2026-02-06T10:00:00.000Z" sample_env
              "2026-02-06T10:05:00.000Z" "2026-02-06T10:05:00.001Z"
              FetchResolved ready_page_ready eq_refl)
    as (x & primary & rest & st1 & _ & Hans & Hrun & Hlog & _);
    try reflexivity.
  - intros x _. eexists _, _. split; reflexivity.
  - injection Hans as <- <-.
    destruct (Hlog st1 eq_refl) as (payload & after & Hev & Hts & _ & Hs).
    exists x, st1, payload, after.
    split; [exact Hrun|]. split; [exact Hev|]. split; assumption.
Defined.

Lemma initialize_settle_order_witness :
  snd (initialize toString_integral sample_parse ReviewsFirst
                  missing_response (Throw (Rejected "offline")) initial_state)
  = [ShowError
       "Failed to initialize application: Failed to load TSV file: 404 Not Found"]
  /\ snd (initialize toString_integral sample_parse ModelFirst
                     missing_response (Throw (Rejected "offline"))
                     initial_state)
     = [ShowError
          "Failed to initialize application: Model loading failed: offline"].
Proof.
  exact (proj1 (proj2 (initialize_settle_order toString_integral sample_parse
                         missing_response (Throw (Rejected "offline"))
                         initial_state))
               (Rejected "Failed to load TSV file: 404 Not Found")
               (Rejected "Model loading failed: offline")
               eq_refl eq_refl).
Defined.

Module AppsScriptInstances.
Import AppsScript AppsScriptFacts.

Lemma doPost_appends_witness :
  has_content (rowData sample_record) = true
  /\ exists b' g',
       doPost (Ok sample_record) (Ok fresh_book)
       = (Logged "Data logged successfully" 2, Ok b')
       /\ getSheetByName sheetName b' = Some g'
       /\ firstn 4 (row_at g' 2) = rowData sample_record
       /\ row_at g' 1 = HEADERS.
Proof.
  split; [reflexivity|].
  destruct (doPost_appends sample_record fresh_book [HEADERS] eq_refl eq_refl)
    as (b' & g' & Hpost & Hg' & _ & Hrow & Hother & _).
  exists b', g'. split; [exact Hpost|]. split; [exact Hg'|].
  split; [exact Hrow|]. apply (Hother 1%nat); [lia|discriminate].
Defined.

Lemma doPost_first_use_witness :
  exists b',
    doPost (Ok sample_record) (Ok new_book)
    = (Logged "Data logged successfully" 2, Ok b')
    /\ getSheetByName sheetName b' = Some [HEADERS; rowData sample_record]
    /\ getSheetByName "Sheet1" b' = Some [].
Proof.
  destruct (doPost_first_use sample_record new_book eq_refl)
    as (b' & Hpost & Hg & Hother).
  exists b'. split; [exact Hpost|]. split; [exact Hg|].
  apply (Hother "Sheet1"). discriminate.
Defined.

Lemma post_all_in_order_witness :
  exists g',
    getSheetByName sheetName
                   (snd (post_all [sample_record; second_record] fresh_book))
    = Some g'
    /\ getLastRow g' = 3%nat
    /\ firstn 4 (row_at g' 3) = rowData second_record.
Proof.
  assert (Hall : Forall (fun d => has_content (rowData d) = true)
                        [sample_record; second_record])
    by (repeat constructor).
  destruct (post_all_in_order [sample_record; second_record] fresh_book
              [HEADERS] eq_refl Hall)
    as (g' & Hg' & Hlast & Hrows & _).
  exists g'. split; [exact Hg'|]. split; [exact Hlast|].
  exact (proj2 (Hrows 1%nat second_record eq_refl)).
Defined.

Lemma setupSheet_then_post_witness :
  (exists b1 b2,
      setupSheet (Ok used_book) = Ok b1
      /\ getSheetByName sheetName b1 = Some [HEADERS]
      /\ getSheetByName "Sheet1" b1 = Some [["notes"]]
      /\ doPost (Ok second_record) (Ok b1)
         = (Logged "Data logged successfully" 2, Ok b2))
  /\ exists e, setupSheet (Ok fresh_book) = Throw e.
Proof.
  split.
  - destruct (proj1 (setupSheet_then_post used_book second_record))
      as (b1 & b2 & Hset & Hlogs & Hother & Hpost & _).
    + right. exists "Sheet1". split; discriminate.
    + exists b1, b2. split; [exact Hset|]. split; [exact Hlogs|].
      split; [|exact Hpost]. apply (Hother "Sheet1"). discriminate.
  - apply (proj2 (setupSheet_then_post fresh_book second_record)).
    + discriminate.
    + intros n Hn. unfold fresh_book. cbn [getSheetByName].
      destruct (String.eqb_spec sheetName n) as [E|_]; [|reflexivity].
      symmetry in E. contradiction.
Defined.

End AppsScriptInstances.
